(** * FitFinder: the matching and scoring engine of [UniversalResumeRanker]

    A shallow embedding of [backend/enhanced_resume_ranker_connect.py] and the
    properties of its scoring pipeline.

    Conventions of the model.
    - A Python [str] is a [string]: the UTF-8 bytes of the text.  The
      character classes [\d], [\s], [\w] and [str.lower] are the ASCII ones;
      a byte above 127 is in none of the classes and is left alone by
      [lower].
    - A Python [int] is a [Z]; a Python [float] is a rational [Q], so the
      arithmetic of the scores is exact.
    - A [dict] is an association list in insertion order (the order Python
      iterates it in); a [set] is a [gset].
    - Code that can raise returns an [outcome]. *)

From Stdlib Require Import ZArith QArith Qminmax Lia Lqa Ascii String List DecimalString.
From stdpp Require Import base decidable option list sorting gmap strings.

Close Scope Q_scope.
Open Scope string_scope.
Open Scope Z_scope.

(** ** Text primitives *)

Module Text.

Definition code (c : ascii) : N := N_of_ascii c.

Definition in_range (lo hi : N) (c : ascii) : bool :=
  ((lo <=? code c) && (code c <=? hi))%N.

(** [\d] *)
Definition is_digit : ascii -> bool := in_range 48 57.

(** [\s]: tab, line feed, vertical tab, form feed, carriage return, the
    four separators 28..31 and the space. *)
Definition is_space (c : ascii) : bool :=
  in_range 9 13 c || in_range 28 32 c.

(** [\w] *)
Definition is_word (c : ascii) : bool :=
  in_range 48 57 c || in_range 65 90 c || in_range 97 122 c
  || (code c =? 95)%N.

Definition lower_char (c : ascii) : ascii :=
  if in_range 65 90 c then ascii_of_N (code c + 32) else c.

(** [str.lower] *)
Fixpoint lower (s : string) : string :=
  match s with
  | EmptyString => EmptyString
  | String c s' => String (lower_char c) (lower s')
  end.

(** [s.startswith(p)] *)
Fixpoint starts_with (p s : string) : bool :=
  match p, s with
  | EmptyString, _ => true
  | String a p', String b s' => if Ascii.eqb a b then starts_with p' s' else false
  | String _ _, EmptyString => false
  end.

(** [p in s] *)
Fixpoint contains (p s : string) : bool :=
  starts_with p s ||
  match s with
  | EmptyString => false
  | String _ s' => contains p s'
  end.

(** [s[n:]] *)
Fixpoint drop (n : nat) (s : string) : string :=
  match n, s with
  | S n', String _ s' => drop n' s'
  | _, _ => s
  end.

(** [s.endswith(p)] *)
Definition ends_with (p s : string) : bool :=
  (String.length p <=? String.length s)%nat
  && String.eqb (drop (String.length s - String.length p) s) p.

(** The first [n] characters of [s]. *)
Fixpoint take (n : nat) (s : string) : string :=
  match n, s with
  | S n', String c s' => String c (take n' s')
  | _, _ => EmptyString
  end.

(** [int(s)] on a run of decimal digits. *)
Definition int_of_digits (s : string) : Z :=
  fold_left (fun acc c => 10 * acc + (Z.of_N (code c) - 48))
            (list_ascii_of_string s) 0.

(** [sep.join(parts)] *)
Fixpoint join (sep : string) (parts : list string) : string :=
  match parts with
  | [] => ""
  | [p] => p
  | p :: rest => p ++ sep ++ join sep rest
  end.

End Text.

(** ** A backtracking matcher for the fragment of [re] the module uses *)

Module Re.
Import Text.

Inductive regex : Type :=
| Eps                          (* the empty pattern *)
| Chr (p : ascii -> bool)     (* one character: a literal or a class *)
| Seq (r1 r2 : regex)
| Alt (r1 r2 : regex)          (* r1|r2, r1 is tried first *)
| Star (p : ascii -> bool)    (* c*, greedy, on a one-character class *)
| Group (r : regex)            (* the capturing group *)
| Bound.                       (* \b *)

Definition exactly (c : ascii) : ascii -> bool := Ascii.eqb c.
Definition any_but_newline (c : ascii) : bool := negb (code c =? 10)%N.

Fixpoint lit (s : string) : regex :=
  match s with
  | EmptyString => Eps
  | String c s' => Seq (Chr (exactly c)) (lit s')
  end.

Definition opt (r : regex) : regex := Alt r Eps.        (* r? *)
Definition plus (p : ascii -> bool) : regex := Seq (Chr p) (Star p).  (* c+ *)
Definition cat (rs : list regex) : regex := foldr Seq Eps rs.

(** A match in progress: the character before the cursor (for [\b]), the
    text from the cursor on, and what the group has captured so far. *)
Definition cont (R : Type) : Type :=
  option ascii -> string -> option string -> option R.

Definition word_before (prev : option ascii) : bool :=
  match prev with Some c => is_word c | None => false end.
Definition word_after (s : string) : bool :=
  match s with String c _ => is_word c | EmptyString => false end.
Definition at_boundary (prev : option ascii) (s : string) : bool :=
  xorb (word_before prev) (word_after s).

(** Greedy repetition: the longest run first, then one character less. *)
Fixpoint star {R} (p : ascii -> bool) (prev : option ascii) (s : string)
    (k : option ascii -> string -> option R) : option R :=
  match s with
  | String c s' =>
      if p c then
        match star p (Some c) s' k with
        | Some x => Some x
        | None => k prev s
        end
      else k prev s
  | EmptyString => k prev s
  end.

Definition consumed (s rest : string) : string :=
  take (String.length s - String.length rest)%nat s.

Fixpoint rmatch {R} (r : regex) (prev : option ascii) (s : string)
    (cap : option string) (k : cont R) : option R :=
  match r with
  | Eps => k prev s cap
  | Chr p =>
      match s with
      | String c s' => if p c then k (Some c) s' cap else None
      | EmptyString => None
      end
  | Seq r1 r2 =>
      rmatch r1 prev s cap (fun prev' s' cap' => rmatch r2 prev' s' cap' k)
  | Alt r1 r2 =>
      match rmatch r1 prev s cap k with
      | Some x => Some x
      | None => rmatch r2 prev s cap k
      end
  | Star p => star p prev s (fun prev' s' => k prev' s' cap)
  | Group r1 =>
      rmatch r1 prev s cap (fun prev' s' _ => k prev' s' (Some (consumed s s')))
  | Bound => if at_boundary prev s then k prev s cap else None
  end.

(** The match that starts at the cursor, if any: the captured group and
    the text left after the match. *)
Definition match_here (r : regex) (prev : option ascii) (s : string)
    : option (option string * string) :=
  rmatch r prev s None (fun _ rest cap => Some (cap, rest)).

(** [re.search(r, s)] as a truth value. *)
Fixpoint search_from (r : regex) (prev : option ascii) (s : string) : bool :=
  match match_here r prev s with
  | Some _ => true
  | None =>
      match s with
      | String c s' => search_from r (Some c) s'
      | EmptyString => false
      end
  end.
Definition search (r : regex) (s : string) : bool := search_from r None s.

(** [re.findall(r, s)] for a pattern with one group: the captures of the
    successive non-overlapping matches, scanning from the left.  [skip]
    counts the characters still covered by the previous match. *)
Fixpoint findall_from (r : regex) (prev : option ascii) (s : string)
    (skip : nat) : list string :=
  match s with
  | EmptyString => []
  | String c s' =>
      match skip with
      | S n => findall_from r (Some c) s' n
      | O =>
          match match_here r prev s with
          | Some (cap, rest) =>
              default "" cap ::
              findall_from r (Some c) s'
                (String.length s - String.length rest - 1)%nat
          | None => findall_from r (Some c) s' 0
          end
      end
  end.
Definition findall (r : regex) (s : string) : list string :=
  findall_from r None s 0.

End Re.

(** ** Results of code that can raise *)

Inductive outcome (A : Type) : Type :=
| Returns (a : A)
| Raises (e : string).
Arguments Returns {A} a.
Arguments Raises {A} e.

Definition bind {A B} (m : outcome A) (f : A -> outcome B) : outcome B :=
  match m with
  | Returns a => f a
  | Raises e => Raises e
  end.

#[global] Instance outcome_ret : MRet outcome := @Returns.
#[global] Instance outcome_bind : MBind outcome := fun A B f m => bind m f.

(** [try: m  except Exception: h] *)
Definition try_except {A} (m : outcome A) (h : string -> outcome A) : outcome A :=
  match m with
  | Returns a => Returns a
  | Raises e => h e
  end.

(** [a / b] on floats, and on integers once converted. *)
Definition fdiv (a b : Q) : outcome Q :=
  if Qeq_bool b 0 then Raises "ZeroDivisionError" else Returns (a / b)%Q.

(** The results of the turns of a loop whose body is wrapped in
    [try: ... except Exception: continue]. *)
Fixpoint returned {A} (turns : list (outcome A)) : list A :=
  match turns with
  | [] => []
  | Returns a :: rest => a :: returned rest
  | Raises _ :: rest => returned rest
  end.

(** ** Dictionaries in insertion order *)

Definition dict (V : Type) : Type := list (string * V).

Fixpoint dict_get {V} (k : string) (d : dict V) : option V :=
  match d with
  | [] => None
  | (k', v) :: d' => if String.eqb k k' then Some v else dict_get k d'
  end.

(** [d[k] = v]: an existing key keeps its place, a new one goes last. *)
Fixpoint dict_set {V} (k : string) (v : V) (d : dict V) : dict V :=
  match d with
  | [] => [(k, v)]
  | (k', v') :: d' =>
      if String.eqb k k' then (k, v) :: d' else (k', v') :: dict_set k v d'
  end.

Definition dict_values {V} (d : dict V) : list V := map snd d.

Definition skills_map : Type := dict (list string).

(** [sum(len(skills) for skills in d.values())] *)
Definition total_skill_count (d : skills_map) : Z :=
  foldr Z.add 0 (map (fun skills => Z.of_nat (length skills)) (dict_values d)).

(** ** The ranker *)

Module Ranker.
Import Text.

(** The four weights of [self.config]; the other keys configure the
    vectorizer and the command line. *)
Record Config : Type := {
  text_weight : Q;
  skill_weight : Q;
  experience_weight : Q;
  education_weight : Q
}.

(** [_get_default_config] *)
Definition default_config : Config := {|
  text_weight := 0.3;
  skill_weight := 0.35;
  experience_weight := 0.2;
  education_weight := 0.15
|}.

(** [_initialize_skills_database] *)
Definition universal_skills : skills_map :=
 [
   ("ACCOUNTANT",
    [ "financial analysis"; "tax preparation"; "auditing"; "budgeting";
      "bookkeeping"; "payroll"; "gaap"; "ifrs"; "quickbooks"; "sap";
      "excel"; "financial reporting" ]);
   ("ADVOCATE",
    [ "legal research"; "litigation"; "contract law"; "negotiation";
      "courtroom experience"; "client counseling"; "legal writing";
      "case management"; "appellate practice" ]);
   ("AGRICULTURE",
    [ "crop management"; "soil science"; "irrigation"; "pest control";
      "farm management"; "agricultural economics"; "sustainability";
      "organic farming"; "precision agriculture" ]);
   ("APPAREL",
    [ "fashion design"; "textile knowledge"; "pattern making"; "sewing";
      "merchandising"; "retail management"; "brand development";
      "trend analysis"; "supply chain" ]);
   ("ARTS",
    [ "graphic design"; "illustration"; "photography"; "art history";
      "creative writing"; "performing arts"; "visual arts"; "art education";
      "digital art" ]);
   ("AUTOMOBILE",
    [ "mechanical engineering"; "auto repair"; "diagnostics";
      "electrical systems"; "engine tuning"; "transmission";
      "brake systems"; "automotive technology"; "cad" ]);
   ("AVIATION",
    [ "piloting"; "aircraft maintenance"; "air traffic control";
      "aviation safety"; "flight planning"; "navigation"; "aerodynamics";
      "regulatory compliance"; "airport operations" ]);
   ("BANKING",
    [ "financial services"; "credit analysis"; "risk management";
      "investment banking"; "loan processing"; "customer service";
      "compliance"; "fraud detection"; "treasury" ]);
   ("BPO",
    [ "customer support"; "data entry"; "call center operations";
      "process improvement"; "quality assurance"; "telemarketing";
      "outsourcing"; "client management"; "crm" ]);
   ("BUSINESS-DEVELOPMENT",
    [ "sales"; "market research"; "strategic planning"; "lead generation";
      "client acquisition"; "partnership development"; "negotiation"; "crm";
      "business intelligence" ]);
   ("CHEF",
    [ "culinary arts"; "menu planning"; "food safety"; "kitchen management";
      "recipe development"; "catering"; "baking"; "pastry"; "cost control" ]);
   ("CONSTRUCTION",
    [ "project management"; "blueprint reading"; "safety regulations";
      "heavy machinery operation"; "carpentry"; "plumbing";
      "electrical work"; "masonry"; "estimating" ]);
   ("CONSULTANT",
    [ "strategic consulting"; "problem-solving"; "data analysis";
      "client relations"; "project management"; "industry expertise";
      "report writing"; "presentation skills"; "change management" ]);
   ("DESIGNER",
    [ "graphic design"; "ui/ux design"; "web design"; "branding";
      "typography"; "adobe creative suite"; "prototyping"; "user research";
      "wireframing" ]);
   ("DIGITAL-MEDIA",
    [ "social media management"; "content creation"; "seo"; "sem";
      "video editing"; "photography"; "copywriting"; "analytics";
      "influencer marketing" ]);
   ("ENGINEERING",
    [ "mechanical engineering"; "electrical engineering";
      "civil engineering"; "software engineering"; "cad"; "matlab";
      "project management"; "quality control"; "lean manufacturing" ]);
   ("FINANCE",
    [ "financial modeling"; "investment analysis"; "portfolio management";
      "risk assessment"; "financial reporting"; "budgeting"; "forecasting";
      "bloomberg"; "derivatives" ]);
   ("FITNESS",
    [ "personal training"; "group fitness instruction"; "nutrition";
      "exercise physiology"; "client assessment"; "program design";
      "motivation"; "safety"; "rehabilitation" ]);
   ("HEALTHCARE",
    [ "patient care"; "medical terminology"; "emr"; "clinical skills";
      "nursing"; "pharmacy"; "radiology"; "surgery"; "infection control" ]);
   ("HR",
    [ "recruitment"; "employee relations"; "performance management";
      "training"; "compensation"; "benefits"; "labor laws"; "hris";
      "talent acquisition" ]);
   ("INFORMATION-TECHNOLOGY",
    [ "programming"; "network administration"; "cybersecurity";
      "database management"; "cloud computing"; "it support";
      "software development"; "systems analysis"; "devops" ]);
   ("LEGAL",
    [ "legal research"; "contract law"; "litigation"; "negotiation";
      "compliance"; "case management"; "legal writing"; "client counseling";
      "regulatory affairs" ]);
   ("MARKETING",
    [ "digital marketing"; "content marketing"; "social media marketing";
      "seo"; "sem"; "ppc"; "google analytics"; "brand management";
      "market research"; "campaign management"; "copywriting";
      "a/b testing"; "conversion optimization" ]);
   ("MEDICAL",
    [ "patient care"; "medical terminology"; "clinical skills"; "diagnosis";
      "treatment planning"; "emergency care"; "pharmacology";
      "healthcare regulations"; "medical records" ]);
   ("NGO",
    [ "project management"; "fundraising"; "community outreach";
      "grant writing"; "advocacy"; "program evaluation";
      "stakeholder engagement"; "volunteer management"; "impact measurement" ]);
   ("PHARMACEUTICAL",
    [ "drug development"; "clinical trials"; "regulatory affairs";
      "pharmacology"; "quality assurance"; "sales"; "marketing";
      "research and development"; "gmp" ]);
   ("RESEARCH",
    [ "data analysis"; "statistical methods"; "literature review";
      "experimental design"; "report writing"; "research methodologies";
      "fieldwork"; "academic publishing"; "peer review" ]);
   ("RETAIL",
    [ "customer service"; "inventory management"; "sales"; "merchandising";
      "visual display"; "point of sale systems"; "product knowledge";
      "store operations"; "loss prevention" ]);
   ("PUBLIC-RELATIONS",
    [ "media relations"; "press releases"; "event planning";
      "crisis management"; "social media"; "content creation";
      "brand management"; "stakeholder engagement"; "reputation management" ]);
   ("SALES",
    [ "lead generation"; "customer relationship management";
      "sales strategy"; "negotiation"; "product knowledge"; "closing deals";
      "market analysis"; "cold calling"; "account management" ]);
   ("TEACHER",
    [ "curriculum development"; "classroom management"; "lesson planning";
      "student assessment"; "educational technology"; "special education";
      "counseling"; "pedagogy"; "differentiated instruction" ]);
   ("TECHNICAL-SUPPORT",
    [ "troubleshooting"; "customer service"; "hardware support";
      "software installation"; "network troubleshooting"; "remote support";
      "ticketing systems"; "technical documentation";
      "escalation management" ]);
   ("TOURISM",
    [ "customer service"; "itinerary planning"; "travel booking";
      "cultural knowledge"; "event management"; "tour guiding";
      "hospitality"; "sustainability"; "destination marketing" ]);
   ("TRANSPORTATION",
    [ "logistics"; "supply chain management"; "fleet management";
      "route planning"; "safety regulations"; "customer service";
      "inventory management"; "transportation planning";
      "warehouse management" ]);
   ("SOFT-SKILLS",
    [ "communication"; "teamwork"; "problem-solving"; "time management";
      "adaptability"; "creativity"; "work ethic"; "interpersonal skills";
      "leadership"; "attention to detail"; "critical thinking" ])
 ].

(** *** [extract_dynamic_skills] *)

(** [skill in text_lower], or a match of the escaped skill between two
    word boundaries. *)
Definition skill_found (text_lower skill : string) : bool :=
  contains skill text_lower
  || Re.search (Re.cat [Re.Bound; Re.lit skill; Re.Bound]) text_lower.

(** [reference_skills or self.universal_skills]: [None] and the empty
    dictionary both fall back on the taxonomy. *)
Definition skills_to_search (reference_skills : option skills_map) : skills_map :=
  match reference_skills with
  | Some (entry :: rest) => entry :: rest
  | Some [] | None => universal_skills
  end.

Definition collect_category (text_lower : string) (found_skills : skills_map)
    (entry : string * list string) : skills_map :=
  let '(category, skills) := entry in
  let category_skills := filter (fun skill => skill_found text_lower skill = true) skills in
  match category_skills with
  | [] => found_skills
  | _ :: _ => dict_set category category_skills found_skills
  end.

Definition extract_dynamic_skills (text : string)
    (reference_skills : option skills_map) : skills_map :=
  match text with
  | EmptyString => []
  | String _ _ =>
      let text_lower := lower text in
      fold_left (collect_category text_lower) (skills_to_search reference_skills) []
  end.

(** *** [extract_experience_years] *)

Definition digits : Re.regex := Re.Group (Re.plus is_digit).
Definition plus_sign : Re.regex := Re.opt (Re.lit "+").
Definition ws : Re.regex := Re.Star is_space.
Definition ws1 : Re.regex := Re.plus is_space.
Definition years_word : Re.regex := Re.Seq (Re.lit "year") (Re.opt (Re.lit "s")).
Definition exp_word : Re.regex := Re.Alt (Re.lit "experience") (Re.lit "exp").
Definition of_word : Re.regex := Re.opt (Re.Seq (Re.lit "of") ws).

(** The en dash of the last pattern, as its three UTF-8 bytes. *)
Definition en_dash : string :=
  String (ascii_of_N 226) (String (ascii_of_N 128) (String (ascii_of_N 147) "")).

(** The eight patterns in order: the text of each as the source writes it,
    and its syntax tree. *)
Definition patterns : list (string * Re.regex) :=
  [ ("(\d+)\+?\s*years?\s*(?:of\s*)?(?:experience|exp)",
     Re.cat [digits; plus_sign; ws; years_word; ws; of_word; exp_word]);
    ("(\d+)\+?\s*years?\s*in\s+",
     Re.cat [digits; plus_sign; ws; years_word; ws; Re.lit "in"; ws1]);
    ("(?:experience|exp)(?:\s*of\s*|\s+)(\d+)\+?\s*years?",
     Re.cat [exp_word; Re.Alt (Re.cat [ws; Re.lit "of"; ws]) ws1;
             digits; plus_sign; ws; years_word]);
    ("(\d+)\+?\s*yr[s]?\s*(?:of\s*)?(?:experience|exp)",
     Re.cat [digits; plus_sign; ws; Re.lit "yr"; Re.opt (Re.lit "s"); ws;
             of_word; exp_word]);
    ("(\d+)\+?\s*years?\s*(?:working|in\s+field)",
     Re.cat [digits; plus_sign; ws; years_word; ws;
             Re.Alt (Re.lit "working")
                    (Re.cat [Re.lit "in"; ws1; Re.lit "field"])]);
    ("\((\d+)\s*years?\)",
     Re.cat [Re.lit "("; digits; ws; years_word; Re.lit ")"]);
    ("(\d+)\s*years?",
     Re.cat [digits; ws; years_word]);
    ("(\d{4})\s*[-–]\s*(?:present|current)",
     Re.cat [Re.Group (Re.cat [Re.Chr is_digit; Re.Chr is_digit;
                               Re.Chr is_digit; Re.Chr is_digit]);
             ws; Re.Alt (Re.lit "-") (Re.lit en_dash); ws;
             Re.Alt (Re.lit "present") (Re.lit "current")]) ].

Definition current_year : Z := 2025.

(** The body of the loop for one match. *)
Definition year_of_match (pattern m : string) : Z :=
  if ends_with "present|current)" pattern
  then current_year - int_of_digits m
  else int_of_digits m.

(** The list [years] after the loop over the patterns. *)
Definition matched_years (text : string) : list Z :=
  let text_lower := lower text in
  flat_map
    (fun '(pattern, tree) =>
       map (year_of_match pattern) (Re.findall tree text_lower))
    patterns.

(** [sum(year for year in set(years))] *)
Definition sum_of_set (years : gset Z) : Z := set_fold Z.add 0 years.

Definition extract_experience_years (text : string) : Z :=
  let years := matched_years text in
  match years with
  | [] => 0
  | _ :: _ =>
      let total_years := sum_of_set (list_to_set years) in
      Z.min total_years 50
  end.

(** *** [extract_education] *)

(** A keyword goes into the pattern unescaped: the dot of [ph.d] is the
    wildcard. *)
Fixpoint keyword_pattern (keyword : string) : Re.regex :=
  match keyword with
  | EmptyString => Re.Eps
  | String c rest =>
      Re.Seq (if Ascii.eqb c "."%char then Re.Chr Re.any_but_newline
              else Re.Chr (Re.exactly c))
             (keyword_pattern rest)
  end.

Definition education_keywords : dict (list string) :=
  [ ("phd", ["phd"; "ph.d"; "doctorate"; "doctoral"]);
    ("masters", ["masters"; "master"; "mba"; "ms"; "ma"; "msc"; "mtech"; "meng"]);
    ("bachelors", ["bachelors"; "bachelor"; "bs"; "ba"; "bsc"; "btech"; "beng"; "degree"]);
    ("diploma", ["diploma"; "certificate"; "associate"]) ].

Definition education_scores : dict Z :=
  [ ("phd", 5); ("masters", 4); ("bachelors", 3); ("diploma", 2) ].

Definition extract_education (text : string) : Z :=
  let text_lower := lower text in
  let found_education :=
    map fst
      (filter
         (fun entry =>
            existsb (fun keyword =>
                       Re.search (Re.cat [Re.Bound; keyword_pattern keyword; Re.Bound])
                                 text_lower)
                    (snd entry) = true)
         education_keywords) in
  match found_education with
  | [] => 1
  | edu :: rest =>
      foldr Z.max (default 1 (dict_get edu education_scores))
            (map (fun e => default 1 (dict_get e education_scores)) rest)
  end.

(** *** Records of the pipeline *)

(** [ResumeData], without the file size and the processing time. *)
Record ResumeData : Type := {
  filename : string;
  sector : string;
  text : string;
  file_path : option string
}.

(** [JobAnalysis]: the three fields the ranking reads; the detected sector,
    the requirement snippets and the complexity score are for display. *)
Record JobAnalysis : Type := {
  skills_required : skills_map;
  experience_required : Z;
  education_required : Z
}.

(** The dictionary [parse_resume] returns, without the contact details and
    the word and character counts, which the ranking does not read. *)
Record Parsed : Type := {
  p_filename : string;
  p_file_path : option string;
  p_text : string;
  p_raw_text : string;
  p_skills : skills_map;
  p_experience_years : Z;
  p_education_score : Z;
  p_sector : string
}.

(** One entry of [skill_breakdown]. *)
Record Breakdown : Type := {
  required : Z;
  matched : Z;
  matched_skills : list string;
  missing_skills : list string
}.

(** The dictionary of the four weights. *)
Record Weights : Type := {
  w_text : Q;
  w_skills : Q;
  w_experience : Q;
  w_education : Q
}.

Record RankingResult : Type := {
  r_filename : string;
  r_sector : string;
  combined_score : Q;
  text_similarity : Q;
  skill_score : Q;
  experience_score : Q;
  education_score : Q;
  experience_years : Z;
  education_level : Z;
  skills_found : skills_map;
  match_percentage : Q;
  recommendations : list string;
  r_file_path : option string
}.

(** *** [calculate_advanced_skill_match] *)

(** [list(set(a) & set(b))] and [list(set(a) - set(b))].  Python lists a set
    in hash order; the model lists it in the order of [elements]. *)
Definition set_of (l : list string) : gset string := list_to_set l.
Definition common (a b : list string) : list string := elements (set_of a ∩ set_of b).
Definition lacking (a b : list string) : list string := elements (set_of a ∖ set_of b).

(** One turn of the loop over [job_skills.items()]: the state is
    [(skill_breakdown, matched_skills)]. *)
Definition match_category (resume_skills : skills_map)
    (state : dict Breakdown * Z) (entry : string * list string)
    : dict Breakdown * Z :=
  let '(skill_breakdown, matched_count) := state in
  let '(category, skills) := entry in
  match dict_get category resume_skills with
  | Some found =>
      let matched_list := common skills found in
      (dict_set category
         {| required := Z.of_nat (length skills);
            matched := Z.of_nat (length matched_list);
            matched_skills := matched_list;
            missing_skills := lacking skills found |}
         skill_breakdown,
       matched_count + Z.of_nat (length matched_list))
  | None =>
      (dict_set category
         {| required := Z.of_nat (length skills);
            matched := 0;
            matched_skills := [];
            missing_skills := skills |}
         skill_breakdown,
       matched_count)
  end.

Definition calculate_advanced_skill_match (job_skills resume_skills : skills_map)
    : outcome (Q * dict Breakdown) :=
  let total_job_skills := total_skill_count job_skills in
  if total_job_skills =? 0 then Returns (0%Q, [])
  else
    let '(skill_breakdown, matched_count) :=
      fold_left (match_category resume_skills) job_skills ([], 0) in
    score ← fdiv (inject_Z matched_count) (inject_Z total_job_skills);
    Returns (score, skill_breakdown).

(** *** [generate_recommendations] *)

Open Scope list_scope.

(** The decimal text of an integer, as an f-string prints it. *)
Definition str_of_int (n : Z) : string :=
  DecimalString.NilZero.string_of_int (Z.to_int n).

(** The three f-strings. *)
Definition skills_statement (named : list string) : string :=
  "Consider developing skills in: " ++ join ", " named.
Definition experience_statement (experience_gap : Z) : string :=
  "Gain " ++ str_of_int experience_gap ++ " more years of relevant experience".
Definition education_statement : string :=
  "Consider pursuing higher education qualifications".

Definition collect_missing (missing : list string) (entry : string * Breakdown)
    : list string :=
  match missing_skills (snd entry) with
  | [] => missing
  | m :: ms => (missing ++ firstn 3 (m :: ms))%list
  end.

Definition generate_recommendations (skill_breakdown : dict Breakdown)
    (experience_gap education_gap : Z) : list string :=
  let missing := fold_left collect_missing skill_breakdown [] in
  let recommendations : list string := [] in
  let recommendations :=
    match missing with
    | [] => recommendations
    | _ :: _ => recommendations ++ [skills_statement (firstn 5 missing)]
    end in
  let recommendations :=
    if experience_gap >? 0
    then recommendations ++ [experience_statement experience_gap]
    else recommendations in
  let recommendations :=
    if education_gap >? 0
    then recommendations ++ [education_statement]
    else recommendations in
  recommendations.

(** *** The scores of one candidate, lines 526 to 548 of [rank_resumes] *)

Definition exp_score (required_years candidate_years : Z) : Q :=
  if required_years >? 0 then
    let exp_ratio := (inject_Z candidate_years / inject_Z required_years)%Q in
    if Qle_bool exp_ratio 1 then exp_ratio
    else (1 - Qmin ((exp_ratio - 1) * 0.1) 0.3)%Q
  else Qmin (inject_Z candidate_years / 5) 1.

Definition edu_score (required_level candidate_level : Z) : Q :=
  Qmin (inject_Z candidate_level / inject_Z (Z.max required_level 3)) 1.

Definition combine (weights : Weights) (text_sim skill exp edu : Q) : Q :=
  (w_text weights * text_sim + w_skills weights * skill
   + w_experience weights * exp + w_education weights * edu)%Q.

(** *** [sorted(results, key=..., reverse=True)] *)

(** Python's sort is stable, also with [reverse=True]: insertion from the
    right, each element going before the first one whose key is not
    greater. *)
Fixpoint insert_desc {A} (key : A -> Q) (x : A) (l : list A) : list A :=
  match l with
  | [] => [x]
  | y :: l' =>
      if Qle_bool (key y) (key x) then x :: y :: l'
      else y :: insert_desc key x l'
  end.

Definition sorted_desc {A} (key : A -> Q) (l : list A) : list A :=
  foldr (insert_desc key) [] l.

Section Engine.

(** [self.config] *)
Variable config : Config.

(** [clean_text]: regular-expression rewriting of a text, whose result only
    feeds the similarity computation. *)
Variable clean_text : string -> string.

(** The vectorizer and the cosine of scikit-learn, lines 384 to 387: they
    return the similarities or raise. *)
Variable fit_and_compare : string -> list string -> outcome (list Q).

(** *** [calculate_text_similarity] *)

Definition calculate_text_similarity (job_description : string)
    (resume_texts : list string) : outcome (list Q) :=
  match resume_texts with
  | [] => Returns []
  | _ :: _ =>
      try_except (fit_and_compare job_description resume_texts)
                 (fun _ => Returns (repeat 0%Q (length resume_texts)))
  end.

(** *** [_calculate_adaptive_weights] *)

Definition shifted_weights (job_skills : skills_map) (job_exp_years : Z) : Weights :=
  let weights :=
    {| w_text := text_weight config;
       w_skills := skill_weight config;
       w_experience := experience_weight config;
       w_education := education_weight config |} in
  let total_skills := total_skill_count job_skills in
  let weights :=
    if total_skills >? 15 then
      {| w_text := (w_text weights - 0.05)%Q;
         w_skills := (w_skills weights + 0.1)%Q;
         w_experience := (w_experience weights - 0.05)%Q;
         w_education := w_education weights |}
    else weights in
  let weights :=
    if job_exp_years >? 7 then
      {| w_text := (w_text weights - 0.05)%Q;
         w_skills := w_skills weights;
         w_experience := (w_experience weights + 0.1)%Q;
         w_education := (w_education weights - 0.05)%Q |}
    else weights in
  weights.

(** [sum(weights.values())] *)
Definition total_of (weights : Weights) : Q :=
  (0 + w_text weights + w_skills weights + w_experience weights
   + w_education weights)%Q.

Definition _calculate_adaptive_weights (job_skills : skills_map)
    (job_exp_years : Z) : outcome Weights :=
  let weights := shifted_weights job_skills job_exp_years in
  let total_weight := total_of weights in
  t ← fdiv (w_text weights) total_weight;
  s ← fdiv (w_skills weights) total_weight;
  e ← fdiv (w_experience weights) total_weight;
  d ← fdiv (w_education weights) total_weight;
  Returns {| w_text := t; w_skills := s; w_experience := e; w_education := d |}.

(** *** [analyze_job_description] and [parse_resume] *)

Definition analyze_job_description (job_description : string) : JobAnalysis :=
  {| skills_required := extract_dynamic_skills job_description None;
     experience_required := extract_experience_years job_description;
     education_required := extract_education job_description |}.

Definition parse_resume (resume_text file : string) (job_skills : option skills_map)
    (path : option string) (resume_sector : string) : Parsed :=
  {| p_filename := file;
     p_file_path := path;
     p_text := clean_text resume_text;
     p_raw_text := resume_text;
     p_skills := extract_dynamic_skills resume_text job_skills;
     p_experience_years := extract_experience_years resume_text;
     p_education_score := extract_education resume_text;
     p_sector := resume_sector |}.

(** *** [rank_resumes] *)

(** The body of the loop over [enumerate(processed_resumes)]. *)
Definition score_resume (job_analysis : JobAnalysis) (weights : Weights)
    (text_similarities : list Q) (i : nat) (resume : Parsed)
    : outcome RankingResult :=
  '(skill, skill_breakdown) ←
    calculate_advanced_skill_match (skills_required job_analysis) (p_skills resume);
  let text_sim := nth i text_similarities 0%Q in
  let exp := exp_score (experience_required job_analysis) (p_experience_years resume) in
  let edu := edu_score (education_required job_analysis) (p_education_score resume) in
  let combined := combine weights text_sim skill exp edu in
  let experience_gap :=
    Z.max 0 (experience_required job_analysis - p_experience_years resume) in
  let education_gap :=
    Z.max 0 (education_required job_analysis - p_education_score resume) in
  Returns
  {| r_filename := p_filename resume;
     r_sector := p_sector resume;
     combined_score := combined;
     text_similarity := text_sim;
     skill_score := skill;
     experience_score := exp;
     education_score := edu;
     experience_years := p_experience_years resume;
     education_level := p_education_score resume;
     skills_found := p_skills resume;
     match_percentage := (combined * 100)%Q;
     recommendations :=
       generate_recommendations skill_breakdown experience_gap education_gap;
     r_file_path := p_file_path resume |}.

Definition rank_resumes (job_description : string) (resumes_data : list ResumeData)
    : outcome (list RankingResult) :=
  let job_analysis := analyze_job_description job_description in
  let cleaned_job_desc := clean_text job_description in
  let processed_resumes :=
    map (fun resume =>
           parse_resume (text resume) (filename resume)
                        (Some (skills_required job_analysis))
                        (file_path resume) (sector resume))
        resumes_data in
  match processed_resumes with
  | [] => Returns []
  | _ :: _ =>
      let resume_texts := map p_text processed_resumes in
      text_similarities ← calculate_text_similarity cleaned_job_desc resume_texts;
      weights ← _calculate_adaptive_weights (skills_required job_analysis)
                                            (experience_required job_analysis);
      let results :=
        returned (imap (score_resume job_analysis weights text_similarities)
                       processed_resumes) in
      Returns (sorted_desc combined_score results)
  end.

End Engine.

(** *** Notions the statements below use *)

(** The sum of the four configured weights. *)
Definition base_total (config : Config) : Q :=
  (text_weight config + skill_weight config + experience_weight config
   + education_weight config)%Q.

(** The configured weights leave room for both shifts. *)
Definition roomy (config : Config) : Prop :=
  (0.1 <= text_weight config /\ 0 <= skill_weight config
   /\ 0.05 <= experience_weight config /\ 0.05 <= education_weight config)%Q.

Definition unit_interval (x : Q) : Prop := (0 <= x /\ x <= 1)%Q.

(** An entry of a skills mapping is drawn from [reference]: its sector is
    one of the reference and its phrases are among those listed there. *)
Definition drawn_from (reference : skills_map) (entry : string * list string)
    : Prop :=
  exists listed,
    In (fst entry, listed) reference
    /\ forall phrase, In phrase (snd entry) -> In phrase listed.

(** An entry of a skills mapping is what the search of [text_lower] keeps
    of an entry of [reference]: the same sector, and the phrases found, in
    the order they are listed in. *)
Definition filtered_from (text_lower : string) (reference : skills_map)
    (entry : string * list string) : Prop :=
  exists listed,
    In (fst entry, listed) reference
    /\ snd entry = filter (fun skill => skill_found text_lower skill = true) listed.

(** No phrase twice under a sector. *)
Definition distinct_phrases (skills : skills_map) : Prop :=
  Forall (fun entry => NoDup (snd entry)) skills.

(** The count of the specification: the phrases of the requirement, each
    counted once per sector, that the candidate has under the same sector,
    summed over the sectors. *)
Definition phrases_also_found (job_skills resume_skills : skills_map) : Z :=
  foldr Z.add 0
    (map (fun '(category, skills) =>
            match dict_get category resume_skills with
            | Some found =>
                Z.of_nat (length (filter (fun phrase => phrase ∈ found)
                                         (remove_dups skills)))
            | None => 0
            end)
         job_skills).

(** The same count with every occurrence of a phrase counted. *)
Definition occurrences_also_found (job_skills resume_skills : skills_map) : Z :=
  foldr Z.add 0
    (map (fun '(category, skills) =>
            match dict_get category resume_skills with
            | Some found =>
                Z.of_nat (length (filter (fun phrase => phrase ∈ found) skills))
            | None => 0
            end)
         job_skills).

(** The phrases a skills statement draws on: the first three missing
    phrases of each sector, the sectors in the order of the breakdown. *)
Definition missing_pool (skill_breakdown : dict Breakdown) : list string :=
  concat (map (fun entry => firstn 3 (missing_skills (snd entry))) skill_breakdown).

(** Descending order of the keys. *)
Definition descending_by {A} (key : A -> Q) (l : list A) : Prop :=
  StronglySorted (fun a b => (key b <= key a)%Q) l.

(** The elements whose key is [v], in the order of the list. *)
Definition keyed {A} (key : A -> Q) (v : Q) (l : list A) : list A :=
  List.filter (fun x => Qeq_bool (key x) v) l.

(** Descending order of the combined score, and the results of a given
    combined score. *)
Definition descending (results : list RankingResult) : Prop :=
  descending_by combined_score results.
Definition with_score (v : Q) (results : list RankingResult) : list RankingResult :=
  keyed combined_score v results.

(** Sixteen required phrases over two sectors. *)
Definition sixteen_skills : skills_map :=
  [ ("MARKETING", ["digital marketing"; "content marketing"; "seo"; "sem";
                   "ppc"; "google analytics"; "brand management";
                   "market research"]);
    ("DIGITAL-MEDIA", ["social media management"; "content creation"; "seo";
                       "sem"; "video editing"; "photography"; "copywriting";
                       "analytics"]) ].

(** A requirement and a batch of three candidates, the first and the last
    with the same text; the similarities stand for those of the vector
    model. *)
Definition sample_job : string :=
  "Marketing specialist: seo, sem and ppc. 4 years of experience. Bachelor degree.".

Definition sample_batch : list ResumeData :=
  [ {| filename := "first.pdf"; sector := "General";
       text := "seo and ppc, 1 year of experience";
       file_path := None |};
    {| filename := "second.pdf"; sector := "General";
       text := "seo, sem, ppc; 5 years of experience; master of science";
       file_path := None |};
    {| filename := "third.pdf"; sector := "General";
       text := "seo and ppc, 1 year of experience";
       file_path := None |} ].

(** A requirement with more than 15 phrases and more than 7 years, and a
    candidate whose text is the requirement itself. *)
Definition demanding_job : string :=
  "Head of marketing: digital marketing, content marketing, social media marketing, seo, sem, ppc, google analytics, brand management, market research, campaign management, copywriting, content creation, analytics. 8 years of experience. Bachelor degree.".

Definition demanding_batch : list ResumeData :=
  [ {| filename := "same.pdf"; sector := "General"; text := demanding_job;
       file_path := None |} ].

(** A configuration that sums to 1 with the text weight at 0.05. *)
Definition cramped_config : Config := {|
  text_weight := 0.05;
  skill_weight := 0.6;
  experience_weight := 0.2;
  education_weight := 0.15
|}.

Definition sample_clean (t : string) : string := lower t.

Definition sample_fit (job : string) (texts : list string) : outcome (list Q) :=
  Returns (map (fun _ => 1 # 2)%Q texts).

(** *** Notions the further statements use *)

(** Some keyword of the list occurs in the text as a word of its own, the
    test [extract_education] makes for each tier. *)
Definition mentions (keywords : list string) (text_lower : string) : bool :=
  existsb (fun keyword =>
             Re.search (Re.cat [Re.Bound; keyword_pattern keyword; Re.Bound])
                       text_lower)
          keywords.

(** The keywords of a tier. *)
Definition tier (level : string) : list string :=
  default [] (dict_get level education_keywords).

(** What a search of [text_lower] keeps of one entry of the reference. *)
Definition kept (text_lower : string) (entry : string * list string)
    : list (string * list string) :=
  match filter (fun skill => skill_found text_lower skill = true) (snd entry) with
  | [] => []
  | s :: rest => [(fst entry, s :: rest)]
  end.

(** The phrases the candidate lists under a sector; none when the sector is
    missing. *)
Definition listed_under (category : string) (resume_skills : skills_map)
    : list string :=
  default [] (dict_get category resume_skills).

(** A breakdown entry accounts for a sector of the requirement. *)
Definition accounts_for (resume_skills : skills_map)
    (entry : string * list string) (line : string * Breakdown) : Prop :=
  fst line = fst entry
  /\ required (snd line) = Z.of_nat (length (snd entry))
  /\ matched (snd line) = Z.of_nat (length (matched_skills (snd line)))
  /\ (forall phrase,
        In phrase (matched_skills (snd line))
        <-> In phrase (snd entry)
            /\ In phrase (listed_under (fst entry) resume_skills))
  /\ (forall phrase,
        In phrase (missing_skills (snd line))
        <-> In phrase (snd entry)
            /\ ~ In phrase (listed_under (fst entry) resume_skills)).

(** The line of the breakdown that one turn of the loop of
    [calculate_advanced_skill_match] writes for an entry of the
    requirement. *)
Definition breakdown_line (resume_skills : skills_map)
    (entry : string * list string) : string * Breakdown :=
  (fst entry,
   match dict_get (fst entry) resume_skills with
   | Some found =>
       {| required := Z.of_nat (length (snd entry));
          matched := Z.of_nat (length (common (snd entry) found));
          matched_skills := common (snd entry) found;
          missing_skills := lacking (snd entry) found |}
   | None =>
       {| required := Z.of_nat (length (snd entry));
          matched := 0;
          matched_skills := [];
          missing_skills := snd entry |}
   end).

(** The candidate lists every required phrase under its sector. *)
Definition covers (found required_skills : skills_map) : Prop :=
  forall category skills phrase,
    In (category, skills) required_skills -> In phrase skills ->
    In phrase (listed_under category found).

(** All five scores of a result are in range. *)
Definition scores_in_range (r : RankingResult) : Prop :=
  unit_interval (text_similarity r) /\ unit_interval (skill_score r)
  /\ unit_interval (experience_score r) /\ unit_interval (education_score r)
  /\ unit_interval (combined_score r)
  /\ (0 <= match_percentage r /\ match_percentage r <= 100)%Q.

(** The similarity engine keeps its scores between 0 and 1. *)
Definition bounded_fit
    (fit_and_compare : string -> list string -> outcome (list Q)) : Prop :=
  forall job texts similarities,
    fit_and_compare job texts = Returns similarities ->
    Forall unit_interval similarities.

(** *** [_detect_sector] *)

(** [sum(1 for skill in skills if skill in text_lower)] *)
Definition occurrences (text_lower : string) (skills : list string) : Z :=
  Z.of_nat (length (filter (fun skill => contains skill text_lower = true) skills)).

(** One turn of the loop over the taxonomy. *)
Definition score_sector (text_lower : string) (sector_scores : dict Z)
    (entry : string * list string) : dict Z :=
  let '(category, skills) := entry in
  if String.eqb category "SOFT-SKILLS" then sector_scores
  else
    let score := occurrences text_lower skills in
    if score >? 0 then dict_set category score sector_scores else sector_scores.

(** [max(items, key=...)] on a list that is not empty: the first of the
    items whose key is the greatest. *)
Fixpoint max_by {A} (key : A -> Z) (best : A) (rest : list A) : A :=
  match rest with
  | [] => best
  | x :: rest' => max_by key (if key x >? key best then x else best) rest'
  end.

Definition _detect_sector (text : string) : string :=
  let text_lower := lower text in
  let sector_scores := fold_left (score_sector text_lower) universal_skills [] in
  match sector_scores with
  | [] => "GENERAL"
  | item :: rest => fst (max_by snd item rest)
  end.

(** *** [_calculate_complexity_score] *)

Definition _calculate_complexity_score (skills : skills_map)
    (experience education : Z) : Q :=
  let skill_count := total_skill_count skills in
  let complexity :=
    ((inject_Z skill_count * 0.4 + inject_Z experience * 0.4
      + inject_Z education * 0.2) / 20)%Q in
  Qmin complexity 1.

(** The fields [sector_detected] and [complexity_score] of the analysis of
    a job description, lines 164 and 166 of [analyze_job_description]. *)
Definition sector_detected (job_description : string) : string :=
  _detect_sector job_description.

Definition complexity_score (job_description : string) : Q :=
  _calculate_complexity_score
    (extract_dynamic_skills job_description None)
    (extract_experience_years job_description)
    (extract_education job_description).

(** The scores of the sectors a text can be assigned to: every sector of
    the taxonomy but the soft skills, with the number of its phrases that
    occur in the text. *)
Definition sector_counts (text_lower : string) : dict Z :=
  flat_map (fun entry : string * list string =>
              if String.eqb (fst entry) "SOFT-SKILLS" then []
              else [(fst entry, occurrences text_lower (snd entry))])
           universal_skills.

(** *** [_identify_strengths] *)

(** [a > b] and [a < b] on floats. *)
Definition Qgt_bool (a b : Q) : bool := negb (Qle_bool a b).
Definition Qlt_bool (a b : Q) : bool := negb (Qle_bool b a).

Definition _identify_strengths (result : RankingResult) : list string :=
  let strengths := [] in
  let strengths :=
    if Qgt_bool (skill_score result) 0.7
    then strengths ++ ["Strong skill match"] else strengths in
  let strengths :=
    if Qgt_bool (experience_score result) 0.8
    then strengths ++ ["Excellent experience level"] else strengths in
  let strengths :=
    if Qgt_bool (education_score result) 0.8
    then strengths ++ ["Strong educational background"] else strengths in
  let strengths :=
    if Qgt_bool (text_similarity result) 0.6
    then strengths ++ ["High content relevance"] else strengths in
  let strengths :=
    if Qgt_bool (match_percentage result) 85
    then strengths ++ ["Exceptional overall match"] else strengths in
  strengths.

(** *** Tallies *)

(** [counts[key] = counts.get(key, 0) + 1], the step of the loops that
    tally, and of [Counter]. *)
Definition count_one (counts : dict Z) (key : string) : dict Z :=
  dict_set key (default 0 (dict_get key counts) + 1) counts.

(** [dict(Counter(keys))] *)
Definition Counter (keys : list string) : dict Z := fold_left count_one keys [].

(** How many times a key comes in a list. *)
Definition times (key : string) (keys : list string) : Z :=
  Z.of_nat (length (filter (fun k => k = key) keys)).

(** A tally of a list of keys: each key that comes in the list is there
    once, with the number of times it comes. *)
Definition tally_of (keys : list string) (counts : dict Z) : Prop :=
  NoDup (map fst counts)
  /\ forall key,
       dict_get key counts
       = if times key keys =? 0 then None else Some (times key keys).

(** [l[:n]]: a negative [n] counts from the end. *)
Definition slice_to {A} (n : Z) (l : list A) : list A :=
  if n <? 0 then firstn (Z.to_nat (Z.of_nat (length l) + n)) l
  else firstn (Z.to_nat n) l.

(** [len([r for r in results if test(r)])] *)
Definition count_where (test : RankingResult -> bool)
    (results : list RankingResult) : Z :=
  Z.of_nat (length (List.filter test results)).

(** *** The reports: [get_summary_statistics], [get_top_candidates] and
    [create_dashboard_data] *)

(** The dictionary [get_summary_statistics] returns. *)
Record SummaryStatistics : Type := {
  total_resumes : Z;
  average_score : Q;
  median_score : Q;
  std_score : Q;
  min_score : Q;
  max_score : Q;
  average_match_percentage : Q;
  top_10_percent_threshold : Q;
  sectors_represented : Z;
  sector_distribution : dict Z
}.

(** One entry of the list [get_top_candidates] returns. *)
Record Candidate : Type := {
  c_rank : Z;
  c_filename : string;
  c_sector : string;
  c_match_percentage : Q;
  c_overall_score : Q;
  c_experience_years : Z;
  c_education_level : Z;
  c_top_skills : list string;
  c_skill_categories : list string;
  c_recommendations_count : Z;
  c_strengths : list string;
  c_file_path : option string
}.

(** [np.min] and [np.max] of a list that is not empty. *)
Definition np_min (first : Q) (rest : list Q) : Q := fold_left Qmin rest first.
Definition np_max (first : Q) (rest : list Q) : Q := fold_left Qmax rest first.

(** The label of the five-year range of [create_dashboard_data]; [//] is
    the division that rounds down. *)
Definition exp_range (years : Z) : string :=
  (str_of_int (years / 5 * 5) ++ "-" ++ str_of_int (years / 5 * 5 + 4)
   ++ " years")%string.

Section Reports.

(** [np.mean], [np.median], [np.std] and [np.percentile] of numpy, and the
    built-in [round]. *)
Variable np_mean np_median np_std : list Q -> Q.
Variable np_percentile : list Q -> Q -> Q.
Variable round : Q -> Z -> Q.

(** The empty dictionary of an empty ranking is [None]. *)
Definition get_summary_statistics (results : list RankingResult)
    : option SummaryStatistics :=
  match results with
  | [] => None
  | first :: rest =>
      let scores := map combined_score results in
      let match_percentages := map match_percentage results in
      Some
        {| total_resumes := Z.of_nat (length results);
           average_score := np_mean scores;
           median_score := np_median scores;
           std_score := np_std scores;
           min_score := np_min (combined_score first) (map combined_score rest);
           max_score := np_max (combined_score first) (map combined_score rest);
           average_match_percentage := np_mean match_percentages;
           top_10_percent_threshold := np_percentile scores 90;
           sectors_represented :=
             Z.of_nat (size (list_to_set (map r_sector results) : gset string));
           sector_distribution := Counter (map r_sector results) |}
  end.

(** The body of the loop of [get_top_candidates], [i] counting from 1. *)
Definition candidate (i : Z) (result : RankingResult) : Candidate :=
  let all_skills :=
    fold_left (fun all_skills entry => all_skills ++ snd entry)
              (skills_found result) [] in
  {| c_rank := i;
     c_filename := r_filename result;
     c_sector := r_sector result;
     c_match_percentage := round (match_percentage result) 1;
     c_overall_score := round (combined_score result) 3;
     c_experience_years := experience_years result;
     c_education_level := education_level result;
     c_top_skills := firstn 10 all_skills;
     c_skill_categories := map fst (skills_found result);
     c_recommendations_count := Z.of_nat (length (recommendations result));
     c_strengths := _identify_strengths result;
     c_file_path := r_file_path result |}.

Definition get_top_candidates (results : list RankingResult) (top_n : Z)
    : list Candidate :=
  let top_results := slice_to top_n results in
  imap (fun i result => candidate (Z.of_nat i + 1) result) top_results.

End Reports.

(** **** The distributions of [create_dashboard_data], lines 802 to 823 *)

(** [score_ranges] *)
Definition score_ranges (results : list RankingResult) : dict Z :=
  [ ("90-100%", count_where (fun r => Qle_bool 90 (match_percentage r)) results);
    ("80-89%",
     count_where (fun r => Qle_bool 80 (match_percentage r)
                           && Qlt_bool (match_percentage r) 90) results);
    ("70-79%",
     count_where (fun r => Qle_bool 70 (match_percentage r)
                           && Qlt_bool (match_percentage r) 80) results);
    ("60-69%",
     count_where (fun r => Qle_bool 60 (match_percentage r)
                           && Qlt_bool (match_percentage r) 70) results);
    ("Below 60%", count_where (fun r => Qlt_bool (match_percentage r) 60) results) ].

(** [exp_distribution] *)
Definition exp_distribution (results : list RankingResult) : dict Z :=
  fold_left (fun exp_distribution result =>
               count_one exp_distribution (exp_range (experience_years result)))
            results [].

(** [skill_frequency] *)
Definition skill_frequency (results : list RankingResult) : dict Z :=
  fold_left (fun skill_frequency result =>
               fold_left (fun skill_frequency entry =>
                            fold_left count_one (snd entry) skill_frequency)
                         (skills_found result) skill_frequency)
            results [].

(** Every phrase found for a candidate of the ranking, once for each
    candidate and sector it is found under. *)
Definition listed_phrases (results : list RankingResult) : list string :=
  flat_map (fun result => flat_map snd (skills_found result)) results.

(** [top_skills] *)
Definition top_skills (results : list RankingResult) : list (string * Z) :=
  firstn 15 (sorted_desc (fun item => inject_Z (snd item)) (skill_frequency results)).

(** The counts of the entry ['recommendations'], lines 848 to 850. *)
Definition total_candidates (results : list RankingResult) : Z :=
  Z.of_nat (length results).
Definition qualified_candidates (results : list RankingResult) : Z :=
  count_where (fun r => Qle_bool 70 (match_percentage r)) results.
Definition highly_qualified (results : list RankingResult) : Z :=
  count_where (fun r => Qle_bool 85 (match_percentage r)) results.

(** *** [ResumeRankerAPI.rank_single_resume] *)

(** The answer of the service: the payload of a dictionary with
    ['success': True], or the text of ['error']. *)
Inductive response (A : Type) : Type :=
| Succeeded (payload : A)
| Failed (error : string).
Arguments Succeeded {A} payload.
Arguments Failed {A} error.

Record SingleRanking : Type := {
  s_match_percentage : Q;
  s_overall_score : Q;
  s_text_similarity : Q;
  s_skill_score : Q;
  s_experience_score : Q;
  s_education_score : Q;
  s_experience_years : Z;
  s_education_level : Z;
  s_skills_found : skills_map;
  s_recommendations : list string;
  s_strengths : list string
}.

Section Service.

Variable config : Config.
Variable clean_text : string -> string.
Variable fit_and_compare : string -> list string -> outcome (list Q).

(** The error of the dictionary is the exception that was caught.  The
    analysis of the job description that the method makes first is not
    used. *)
Definition rank_single_resume (job_description resume_text filename : string)
    : response SingleRanking :=
  let resume_data :=
    {| filename := filename; sector := "UNKNOWN"; text := resume_text;
       file_path := None |} in
  match rank_resumes config clean_text fit_and_compare job_description
                     [resume_data] with
  | Raises e => Failed e
  | Returns [] => Failed "Failed to process resume"
  | Returns (result :: _) =>
      Succeeded
        {| s_match_percentage := match_percentage result;
           s_overall_score := combined_score result;
           s_text_similarity := text_similarity result;
           s_skill_score := skill_score result;
           s_experience_score := experience_score result;
           s_education_score := education_score result;
           s_experience_years := experience_years result;
           s_education_level := education_level result;
           s_skills_found := skills_found result;
           s_recommendations := recommendations result;
           s_strengths := _identify_strengths result |}
  end.

End Service.

End Ranker.

Import Text Ranker.

(** * Properties *)

(** ** The matcher on small inputs *)

Example en_dash_bytes : en_dash = "–".
Proof. reflexivity. Qed.

Example findall_bare_years :
  Re.findall (Re.cat [digits; ws; years_word]) "7 years and 12years" = ["7"; "12"].
Proof. vm_compute. reflexivity. Qed.

Example findall_backtracks_into_digits :
  Re.findall (Re.cat [Re.Group (Re.cat [Re.Chr is_digit; Re.Chr is_digit;
                                        Re.Chr is_digit; Re.Chr is_digit]);
                      ws; Re.Alt (Re.lit "-") (Re.lit en_dash); ws;
                      Re.Alt (Re.lit "present") (Re.lit "current")])
             "since 12018 – current" = ["2018"].
Proof. vm_compute. reflexivity. Qed.

Example matched_years_all_patterns :
  matched_years "Engineer 2018-Present, (7 years) exp of 3+ years; 12 yrs exp"
  = [3; 12; 7; 7; 7].
Proof. vm_compute. reflexivity. Qed.

Example skill_found_inside_a_word : skill_found "excellent results" "excel" = true.
Proof. vm_compute. reflexivity. Qed.

Example education_word_boundary :
  extract_education "MS in systems" = 4
  /\ extract_education "systems" = 1
  /\ extract_education "ph d candidate with an MBA" = 5.
Proof. repeat split; vm_compute; reflexivity. Qed.

(** ** Adaptive weights *)

Lemma shifted_total config job_skills job_exp_years :
  (total_of (shifted_weights config job_skills job_exp_years)
   == base_total config)%Q.
Proof.
  unfold shifted_weights, total_of, base_total.
  destruct (total_skill_count job_skills >? 15), (job_exp_years >? 7);
    cbn [w_text w_skills w_experience w_education]; ring.
Qed.

Lemma adaptive_weights_returned config job_skills job_exp_years :
  ~ (base_total config == 0)%Q ->
  let sw := shifted_weights config job_skills job_exp_years in
  _calculate_adaptive_weights config job_skills job_exp_years =
    Returns {| w_text := (w_text sw / total_of sw)%Q;
               w_skills := (w_skills sw / total_of sw)%Q;
               w_experience := (w_experience sw / total_of sw)%Q;
               w_education := (w_education sw / total_of sw)%Q |}.
Proof.
  intros Hne sw. unfold _calculate_adaptive_weights, fdiv. fold sw.
  destruct (Qeq_bool (total_of sw) 0) eqn:E; [|reflexivity].
  apply Qeq_bool_iff in E. unfold sw in E. rewrite shifted_total in E.
  contradiction.
Qed.

Lemma adaptive_weights_raised config job_skills job_exp_years :
  (base_total config == 0)%Q ->
  _calculate_adaptive_weights config job_skills job_exp_years
  = Raises "ZeroDivisionError".
Proof.
  intros Hz. unfold _calculate_adaptive_weights, fdiv.
  assert (E : Qeq_bool (total_of (shifted_weights config job_skills job_exp_years)) 0
              = true).
  { apply Qeq_bool_iff. rewrite shifted_total. exact Hz. }
  rewrite E. reflexivity.
Qed.

Lemma normalised_sum (a b c d t : Q) :
  (0 + a + b + c + d == t)%Q -> ~ (t == 0)%Q ->
  (a / t + b / t + c / t + d / t == 1)%Q.
Proof.
  intros Ht Hnz.
  transitivity ((0 + a + b + c + d) / t)%Q; [field; exact Hnz|].
  rewrite Ht. field. exact Hnz.
Qed.

(** C1. Whatever the requirement's skills and years, and whichever of the
    two shifts apply, the four weights [_calculate_adaptive_weights] returns
    sum to 1; it returns them as soon as the configured weights do not sum
    to 0. *)
Theorem adaptive_weights_sum_to_one config job_skills job_exp_years :
  (forall w,
     _calculate_adaptive_weights config job_skills job_exp_years = Returns w ->
     (w_text w + w_skills w + w_experience w + w_education w == 1)%Q)
  /\ (~ (base_total config == 0)%Q ->
      exists w,
        _calculate_adaptive_weights config job_skills job_exp_years = Returns w).
Proof.
  split.
  - intros w Hw. destruct (Qeq_dec (base_total config) 0) as [Hz|Hne].
    + rewrite adaptive_weights_raised in Hw by exact Hz. discriminate.
    + rewrite adaptive_weights_returned in Hw by exact Hne.
      injection Hw as <-. cbn [w_text w_skills w_experience w_education].
      apply normalised_sum; [reflexivity|].
      rewrite shifted_total. exact Hne.
  - intros Hne. eexists. apply adaptive_weights_returned, Hne.
Qed.

Lemma adaptive_weights_sum_to_one_witness :
  exists w,
    _calculate_adaptive_weights default_config sixteen_skills 8 = Returns w
    /\ (w_text w + w_skills w + w_experience w + w_education w == 1)%Q.
Proof.
  destruct (adaptive_weights_sum_to_one default_config sixteen_skills 8)
    as [Hsum Hret].
  destruct Hret as [w Hw]; [vm_compute; discriminate|].
  exists w. split; [exact Hw | apply Hsum, Hw].
Defined.

(** ** Skill score *)

Lemma fdiv_returns (a b : Q) : ~ (b == 0)%Q -> fdiv a b = Returns (a / b)%Q.
Proof.
  intros Hb. unfold fdiv. destruct (Qeq_bool b 0) eqn:E; [|reflexivity].
  apply Qeq_bool_iff in E. contradiction.
Qed.

Lemma inject_Z_nonzero (z : Z) : z <> 0 -> ~ (inject_Z z == 0)%Q.
Proof.
  intros Hz H. apply Hz. unfold Qeq in H. cbn in H. lia.
Qed.

(** The intersection of the two sets has as many elements as the first
    list has distinct phrases that occur in the second. *)
Lemma length_common (a b : list string) :
  length (common a b) = length (filter (fun phrase => phrase ∈ b) (remove_dups a)).
Proof.
  unfold common, set_of.
  change (length (elements ?X)) with (size X).
  rewrite <- (size_list_to_set (C := gset string)
                (filter (fun phrase => phrase ∈ b) (remove_dups a))).
  - f_equal. apply set_eq. intros x.
    rewrite elem_of_intersection, !elem_of_list_to_set, list_elem_of_filter,
      elem_of_remove_dups.
    tauto.
  - apply NoDup_filter, NoDup_remove_dups.
Qed.

Lemma matched_count_spec resume_skills job_skills breakdown n :
  snd (fold_left (match_category resume_skills) job_skills (breakdown, n))
  = n + phrases_also_found job_skills resume_skills.
Proof.
  revert breakdown n.
  induction job_skills as [|[category skills] rest IH]; intros breakdown n.
  - cbn. lia.
  - cbn [fold_left]. unfold match_category at 2.
    unfold phrases_also_found. cbn [map foldr].
    fold (phrases_also_found rest resume_skills).
    destruct (dict_get category resume_skills) as [found|].
    + rewrite IH, length_common. lia.
    + rewrite IH. lia.
Qed.

Lemma skill_match_without_skills job_skills resume_skills :
  total_skill_count job_skills = 0 ->
  calculate_advanced_skill_match job_skills resume_skills = Returns (0%Q, []).
Proof. unfold calculate_advanced_skill_match. intros ->. reflexivity. Qed.

Lemma skill_match_with_skills job_skills resume_skills :
  total_skill_count job_skills <> 0 ->
  exists breakdown,
    calculate_advanced_skill_match job_skills resume_skills
    = Returns ((inject_Z (phrases_also_found job_skills resume_skills)
                / inject_Z (total_skill_count job_skills))%Q,
               breakdown).
Proof.
  unfold calculate_advanced_skill_match.
  intros Hnz. apply Z.eqb_neq in Hnz as Hb. rewrite Hb.
  destruct (fold_left (match_category resume_skills) job_skills ([], 0))
    as [breakdown matched_count] eqn:Hm.
  apply (f_equal snd) in Hm. rewrite matched_count_spec in Hm.
  simpl in Hm. subst matched_count.
  exists breakdown.
  rewrite fdiv_returns by (apply inject_Z_nonzero, Hnz). reflexivity.
Qed.

Lemma skill_match_returns job_skills resume_skills :
  exists score breakdown,
    calculate_advanced_skill_match job_skills resume_skills
    = Returns (score, breakdown).
Proof.
  destruct (Z.eq_dec (total_skill_count job_skills) 0) as [E|E].
  - rewrite skill_match_without_skills by exact E. eauto.
  - destruct (skill_match_with_skills job_skills resume_skills E) as [bd Hbd].
    eauto.
Qed.

(** C8. A requirement with no phrase at all gives the score 0 and the
    empty breakdown, without a division; any other requirement gives the
    number of its phrases the candidate has under the same sector, over
    the number of its phrases.  Either way the function returns. *)
Theorem skill_score_guarded (job_skills resume_skills : skills_map) :
  (total_skill_count job_skills = 0 ->
     calculate_advanced_skill_match job_skills resume_skills = Returns (0%Q, []))
  /\ (total_skill_count job_skills <> 0 ->
        exists breakdown,
          calculate_advanced_skill_match job_skills resume_skills
          = Returns ((inject_Z (phrases_also_found job_skills resume_skills)
                      / inject_Z (total_skill_count job_skills))%Q,
                     breakdown)).
Proof.
  split.
  - apply skill_match_without_skills.
  - apply skill_match_with_skills.
Qed.

Lemma skill_score_guarded_witness :
  calculate_advanced_skill_match [("MARKETING", [])] [("MARKETING", ["seo"])]
    = Returns (0%Q, [])
  /\ exists breakdown,
       calculate_advanced_skill_match
         [("MARKETING", ["seo"; "sem"; "ppc"])] [("MARKETING", ["ppc"; "seo"])]
       = Returns ((2 # 1) / (3 # 1), breakdown)%Q.
Proof.
  split.
  - apply (skill_score_guarded [("MARKETING", [])] [("MARKETING", ["seo"])]).
    reflexivity.
  - apply (skill_score_guarded [("MARKETING", ["seo"; "sem"; "ppc"])]
                               [("MARKETING", ["ppc"; "seo"])]).
    discriminate.
Defined.

(** ** The scores of one candidate *)

Lemma score_resume_returns job_analysis weights sims i resume :
  exists result,
    score_resume job_analysis weights sims i resume = Returns result
    /\ r_filename result = p_filename resume
    /\ match_percentage result = (combined_score result * 100)%Q
    /\ combined_score result
       = combine weights (text_similarity result) (skill_score result)
                 (experience_score result) (education_score result).
Proof.
  unfold score_resume.
  destruct (skill_match_returns (skills_required job_analysis) (p_skills resume))
    as (skill & breakdown & ->).
  eexists. split; [reflexivity|]. repeat split.
Qed.


(** ** Years of experience *)

Lemma experience_years_at_most_50 (text : string) :
  extract_experience_years text <= 50.
Proof.
  unfold extract_experience_years.
  destruct (matched_years text); [lia | apply Z.le_min_r].
Qed.

Lemma experience_years_no_match (text : string) :
  matched_years text = [] -> extract_experience_years text = 0.
Proof. unfold extract_experience_years. intros ->. reflexivity. Qed.

Lemma sum_nonnegative (l : list Z) :
  Forall (fun y => 0 <= y) l -> 0 <= foldr Z.add 0 l.
Proof. induction 1 as [|y l Hy _ IH]; cbn; lia. Qed.

(** Without a date range that starts after the reference year the result
    is not negative. *)
Lemma experience_years_nonnegative (text : string) :
  Forall (fun y => 0 <= y) (matched_years text) ->
  0 <= extract_experience_years text.
Proof.
  intros Hall. unfold extract_experience_years.
  destruct (matched_years text) as [|y ys] eqn:E; [lia|].
  apply Z.min_glb; [|lia].
  unfold sum_of_set, set_fold; cbn [compose].
  apply sum_nonnegative, Forall_forall. intros z Hz.
  apply elem_of_elements, elem_of_list_to_set in Hz.
  rewrite Forall_forall in Hall. apply Hall, Hz.
Qed.

(** C2. A date range that starts after the reference year 2025 makes the
    result negative: the only match of "2026 - Present" is the range, worth
    2025 - 2026, and the cap at 50 leaves -1 as it is. *)
Theorem experience_years_future_start :
  matched_years "2026 - Present" = [-1]
  /\ extract_experience_years "2026 - Present" = -1.
Proof. split; vm_compute; reflexivity. Qed.

(** C3. Repeated values count once: the result is the sum of the distinct
    matched values, capped at 50.  The first text matches 5 four times and
    gives 5; the second matches 5 and 3 twice each and gives 8. *)
Theorem experience_years_deduplicated :
  (matched_years "5 years of experience... 5 years in management" = [5; 5; 5; 5]
   /\ extract_experience_years "5 years of experience... 5 years in management" = 5)
  /\ (matched_years "5 years of experience and 3 years in management" = [5; 3; 5; 3]
      /\ extract_experience_years "5 years of experience and 3 years in management" = 8)
  /\ forall text : string,
       exists distinct : list Z,
         NoDup distinct
         /\ (forall y, In y distinct <-> In y (matched_years text))
         /\ extract_experience_years text
            = match matched_years text with
              | [] => 0
              | _ :: _ => Z.min (foldr Z.add 0 distinct) 50
              end.
Proof.
  split; [|split].
  - split; vm_compute; reflexivity.
  - split; vm_compute; reflexivity.
  - intros text.
    exists (elements (list_to_set (matched_years text) : gset Z)).
    split; [apply NoDup_elements|]. split.
    + intros y.
      rewrite <- !list_elem_of_In, elem_of_elements, elem_of_list_to_set.
      reflexivity.
    + unfold extract_experience_years.
      destruct (matched_years text); reflexivity.
Qed.

(** ** Skill extraction *)

Lemma dict_set_In {V} (k k' : string) (v v' : V) (d : dict V) :
  In (k', v') (dict_set k v d) -> (k', v') = (k, v) \/ In (k', v') d.
Proof.
  induction d as [|[k0 v0] d IH]; cbn.
  - intros [H|[]]. left. symmetry. exact H.
  - destruct (String.eqb k k0); cbn.
    + intros [H|H]; [left; symmetry; exact H | right; right; exact H].
    + intros [H|H]; [right; left; exact H|].
      destruct (IH H) as [E|E]; [left; exact E | right; right; exact E].
Qed.

Lemma collect_category_filtered text_lower reference found_skills entry :
  In entry reference ->
  Forall (filtered_from text_lower reference) found_skills ->
  Forall (filtered_from text_lower reference)
         (collect_category text_lower found_skills entry).
Proof.
  intros Hin Hall. destruct entry as [category skills]. unfold collect_category.
  destruct (filter _ skills) as [|s category_skills] eqn:E; [exact Hall|].
  apply Forall_forall. intros [k v] Hkv.
  apply list_elem_of_In, dict_set_In in Hkv. destruct Hkv as [Hkv|Hkv].
  - injection Hkv as -> ->. exists skills. split; [exact Hin|].
    cbn [snd]. symmetry. exact E.
  - rewrite Forall_forall in Hall. apply Hall, list_elem_of_In, Hkv.
Qed.

Lemma fold_collect_filtered text_lower reference pending found_skills :
  (forall entry, In entry pending -> In entry reference) ->
  Forall (filtered_from text_lower reference) found_skills ->
  Forall (filtered_from text_lower reference)
         (fold_left (collect_category text_lower) pending found_skills).
Proof.
  revert found_skills.
  induction pending as [|entry pending IH]; intros found_skills Hsub Hall.
  - exact Hall.
  - cbn [fold_left]. apply IH.
    + intros e He. apply Hsub. right. exact He.
    + apply collect_category_filtered;
        [apply Hsub; left; reflexivity | exact Hall].
Qed.

Lemma extract_dynamic_skills_filtered text reference :
  Forall (filtered_from (lower text) (skills_to_search reference))
         (extract_dynamic_skills text reference).
Proof.
  unfold extract_dynamic_skills. destruct text as [|c text]; [constructor|].
  apply fold_collect_filtered; [auto | constructor].
Qed.

Lemma filtered_drawn text_lower reference entry :
  filtered_from text_lower reference entry -> drawn_from reference entry.
Proof.
  intros (listed & Hin & Heq). exists listed. split; [exact Hin|].
  intros phrase Hp. rewrite Heq in Hp.
  apply list_elem_of_In, list_elem_of_filter in Hp.
  apply list_elem_of_In, Hp.
Qed.

Lemma extract_dynamic_skills_drawn text reference :
  Forall (drawn_from (skills_to_search reference))
         (extract_dynamic_skills text reference).
Proof.
  eapply Forall_impl; [apply extract_dynamic_skills_filtered|].
  intros entry. apply filtered_drawn.
Qed.

Lemma drawn_from_trans reference reference' entry :
  Forall (drawn_from reference') reference ->
  drawn_from reference entry -> drawn_from reference' entry.
Proof.
  intros Hall (listed & Hin & Hsub).
  rewrite Forall_forall in Hall.
  destruct (Hall _ (proj2 (list_elem_of_In _ _) Hin)) as (listed' & Hin' & Hsub').
  exists listed'. split; [exact Hin'|]. intros phrase Hp. apply Hsub', Hsub, Hp.
Qed.

(** The taxonomy names each sector once and lists no phrase twice under a
    sector. *)
Lemma taxonomy_distinct :
  NoDup (map fst universal_skills) /\ distinct_phrases universal_skills.
Proof.
  split.
  - apply (bool_decide_unpack _). vm_compute. exact I.
  - apply (bool_decide_unpack _). vm_compute. exact I.
Qed.

(** C9. The skills found in a text are drawn from the mapping that was
    searched: every sector is one of its sectors and every phrase under it
    is listed there for that sector.  In the pipeline, where a resume is
    searched for the skills found in the job description, the skills of
    the parsed resume are drawn from the taxonomy, which names each sector
    once. *)
Theorem skills_found_within_taxonomy :
  (forall text reference,
     Forall (drawn_from (skills_to_search reference))
            (extract_dynamic_skills text reference))
  /\ (forall clean_text job_description resume_text file path resume_sector,
        let job_skills := skills_required (analyze_job_description job_description) in
        Forall (drawn_from universal_skills)
               (p_skills (parse_resume clean_text resume_text file
                                       (Some job_skills) path resume_sector)))
  /\ NoDup (map fst universal_skills).
Proof.
  split; [apply extract_dynamic_skills_drawn|].
  split; [|apply taxonomy_distinct].
  intros clean_text job_description resume_text file path resume_sector job_skills.
  subst job_skills.
  cbn [p_skills parse_resume skills_required analyze_job_description].
  pose proof (extract_dynamic_skills_drawn job_description None) as Hjob.
  cbn [skills_to_search] in Hjob.
  remember (extract_dynamic_skills job_description None) as job_skills eqn:E.
  pose proof (extract_dynamic_skills_drawn resume_text (Some job_skills)) as Hres.
  destruct job_skills as [|entry rest]; [exact Hres|].
  cbn [skills_to_search] in Hres.
  eapply Forall_impl; [exact Hres|].
  intros e. apply drawn_from_trans. exact Hjob.
Qed.

(** The skills required by a job description list no phrase twice, so the
    count of the skill score is the plain count of the phrases found. *)
Lemma job_skills_distinct (job_description : string) :
  distinct_phrases (skills_required (analyze_job_description job_description)).
Proof.
  cbn [skills_required analyze_job_description].
  eapply Forall_impl; [apply extract_dynamic_skills_filtered|].
  intros entry (listed & Hin & Heq). cbn [skills_to_search] in Hin.
  rewrite Heq. apply NoDup_filter.
  destruct taxonomy_distinct as [_ Hd]. unfold distinct_phrases in Hd.
  rewrite Forall_forall in Hd.
  apply (Hd (fst entry, listed)), list_elem_of_In, Hin.
Qed.

Lemma remove_dups_NoDup {A} `{EqDecision A} (l : list A) :
  NoDup l -> remove_dups l = l.
Proof.
  induction 1 as [|x l Hx Hl IH]; cbn [remove_dups]; [reflexivity|].
  destruct (decide_rel elem_of x l) as [Hin|_].
  - exfalso. apply Hx, Hin.
  - f_equal. exact IH.
Qed.

Lemma phrases_also_found_plain (job_skills resume_skills : skills_map) :
  distinct_phrases job_skills ->
  phrases_also_found job_skills resume_skills
  = occurrences_also_found job_skills resume_skills.
Proof.
  unfold phrases_also_found, occurrences_also_found.
  induction 1 as [|[category skills] rest Hd _ IH]; cbn [map foldr]; [reflexivity|].
  rewrite IH. cbn [snd] in Hd. rewrite (remove_dups_NoDup skills Hd). reflexivity.
Qed.

(** ** Recommendations *)

Lemma fold_collect_missing skill_breakdown missing :
  fold_left collect_missing skill_breakdown missing
  = missing ++ missing_pool skill_breakdown.
Proof.
  revert missing.
  induction skill_breakdown as [|entry rest IH]; intros missing.
  - cbn. rewrite app_nil_r. reflexivity.
  - cbn [fold_left]. rewrite IH. unfold missing_pool. cbn [map concat].
    unfold collect_missing.
    destruct (missing_skills (snd entry)) as [|m ms].
    + reflexivity.
    + rewrite <- app_assoc. reflexivity.
Qed.

Lemma missing_pool_nil skill_breakdown :
  missing_pool skill_breakdown = []
  <-> Forall (fun entry => missing_skills (snd entry) = []) skill_breakdown.
Proof.
  unfold missing_pool. induction skill_breakdown as [|entry rest IH]; cbn [map concat].
  - split; [constructor | reflexivity].
  - split.
    + intros H. apply app_eq_nil in H as [H1 H2]. constructor.
      * destruct (missing_skills (snd entry)); [reflexivity | discriminate].
      * apply IH, H2.
    + intros H. inversion H as [|? ? H1 H2]; subst.
      rewrite H1. cbn. apply IH, H2.
Qed.

Lemma missing_pool_cons skill_breakdown :
  missing_pool skill_breakdown <> [] ->
  Exists (fun entry => missing_skills (snd entry) <> []) skill_breakdown.
Proof.
  unfold missing_pool. induction skill_breakdown as [|entry rest IH]; cbn [map concat].
  - intros H. contradiction.
  - destruct (missing_skills (snd entry)) as [|m ms] eqn:E.
    + intros H. apply Exists_cons_tl, IH, H.
    + intros _. apply Exists_cons_hd. rewrite E. discriminate.
Qed.

(** C10. The recommendations are, in this order, at most one skills
    statement, at most one experience statement and at most one education
    statement, so at most 3 in all.  The skills statement is there exactly
    when some sector has a missing phrase, and names the first 5 of the
    pool made of the first 3 missing phrases of each sector; the experience
    and the education statements are there exactly when their gap is above
    0. *)
Theorem recommendations_shape (skill_breakdown : dict Breakdown)
    (experience_gap education_gap : Z) :
  exists skills_part experience_part education_part : list string,
    generate_recommendations skill_breakdown experience_gap education_gap
    = skills_part ++ experience_part ++ education_part
    /\ (skills_part = [skills_statement (firstn 5 (missing_pool skill_breakdown))]
        /\ Exists (fun entry => missing_skills (snd entry) <> []) skill_breakdown
        \/ skills_part = []
           /\ Forall (fun entry => missing_skills (snd entry) = []) skill_breakdown)
    /\ (experience_part = [experience_statement experience_gap] /\ 0 < experience_gap
        \/ experience_part = [] /\ experience_gap <= 0)
    /\ (education_part = [education_statement] /\ 0 < education_gap
        \/ education_part = [] /\ education_gap <= 0)
    /\ (length (firstn 5 (missing_pool skill_breakdown)) <= 5)%nat
    /\ Forall (fun entry =>
                 (length (firstn 3 (missing_skills (snd entry))) <= 3)%nat)
              skill_breakdown
    /\ (length (generate_recommendations skill_breakdown experience_gap
                                         education_gap) <= 3)%nat.
Proof.
  unfold generate_recommendations. rewrite fold_collect_missing, app_nil_l.
  exists (match missing_pool skill_breakdown with
          | [] => []
          | _ :: _ => [skills_statement (firstn 5 (missing_pool skill_breakdown))]
          end),
         (if experience_gap >? 0 then [experience_statement experience_gap] else []),
         (if education_gap >? 0 then [education_statement] else []).
  split; [|split; [|split; [|split; [|split; [|split]]]]].
  - destruct (missing_pool skill_breakdown), (experience_gap >? 0),
      (education_gap >? 0); reflexivity.
  - destruct (missing_pool skill_breakdown) as [|m ms] eqn:E.
    + right. split; [reflexivity|]. apply missing_pool_nil, E.
    + left. split; [reflexivity|].
      apply missing_pool_cons. rewrite E. discriminate.
  - destruct (experience_gap >? 0) eqn:E; [left | right]; (split; [reflexivity|]).
    + apply Z.gtb_lt, E.
    + rewrite Z.gtb_ltb in E. apply Z.ltb_ge, E.
  - destruct (education_gap >? 0) eqn:E; [left | right]; (split; [reflexivity|]).
    + apply Z.gtb_lt, E.
    + rewrite Z.gtb_ltb in E. apply Z.ltb_ge, E.
  - rewrite length_firstn. lia.
  - apply Forall_forall. intros entry _. rewrite length_firstn. lia.
  - destruct (missing_pool skill_breakdown), (experience_gap >? 0),
      (education_gap >? 0); cbn; lia.
Qed.

(** ** Text similarity *)

Lemma text_similarity_returns
    (fit_and_compare : string -> list string -> outcome (list Q))
    (job_description : string) (resume_texts : list string) :
  calculate_text_similarity fit_and_compare job_description resume_texts
  = Returns
      match resume_texts with
      | [] => []
      | _ :: _ =>
          match fit_and_compare job_description resume_texts with
          | Returns found => found
          | Raises _ => repeat 0%Q (length resume_texts)
          end
      end.
Proof.
  unfold calculate_text_similarity. destruct resume_texts as [|t rest].
  - reflexivity.
  - destruct (fit_and_compare job_description (t :: rest)); reflexivity.
Qed.

(** C7. [calculate_text_similarity] always returns: the empty list for an
    empty list of candidate texts, and, when the fit of the vector model
    raises, one zero for each candidate text. *)
Theorem text_similarity_never_raises
    (fit_and_compare : string -> list string -> outcome (list Q))
    (job_description : string) (resume_texts : list string) :
  exists similarities,
    calculate_text_similarity fit_and_compare job_description resume_texts
    = Returns similarities
    /\ (resume_texts = [] -> similarities = [])
    /\ (forall e, fit_and_compare job_description resume_texts = Raises e ->
                  similarities = repeat 0%Q (length resume_texts))
    /\ (forall found, resume_texts <> [] ->
                      fit_and_compare job_description resume_texts = Returns found ->
                      similarities = found).
Proof.
  eexists. split; [apply text_similarity_returns|].
  split; [|split].
  - intros ->. reflexivity.
  - intros e He. rewrite He. destruct resume_texts; reflexivity.
  - intros found Hne Hf. rewrite Hf. destruct resume_texts; [contradiction | reflexivity].
Qed.

Lemma text_similarity_never_raises_witness :
  exists similarities,
    calculate_text_similarity (fun _ _ => Raises "ValueError") "the of and"
                              ["the and"; "of the"]
    = Returns similarities
    /\ similarities = [0%Q; 0%Q].
Proof.
  destruct (text_similarity_never_raises (fun _ _ => Raises "ValueError")
              "the of and" ["the and"; "of the"]) as (sims & Hret & _ & Hzero & _).
  exists sims. split; [exact Hret|]. apply (Hzero "ValueError"). reflexivity.
Defined.

(** ** Experience score *)

Lemma inject_Z_pos (z : Z) : 0 < z -> (0 < inject_Z z)%Q.
Proof. intros H. change 0%Q with (inject_Z 0). rewrite <- Zlt_Qlt. exact H. Qed.

(** C4. With required years above 0 the experience score is the ratio of
    candidate years to required years while that ratio is at most 1, so it
    is 1 when the two are equal; above 1 it is
    1 - min((ratio - 1) * 0.1, 0.3), which is never below 0.7; with
    required years 0 it is min(candidate years / 5, 1). *)
Theorem experience_score_cases (required_years candidate_years : Z) :
  let ratio := (inject_Z candidate_years / inject_Z required_years)%Q in
  (0 < required_years -> (ratio <= 1)%Q ->
     (exp_score required_years candidate_years == ratio)%Q)
  /\ (0 < required_years -> (exp_score required_years required_years == 1)%Q)
  /\ (0 < required_years -> (1 < ratio)%Q ->
        (exp_score required_years candidate_years
         == 1 - Qmin ((ratio - 1) * 0.1) 0.3)%Q
        /\ (0.7 <= exp_score required_years candidate_years)%Q)
  /\ (required_years = 0 ->
        (exp_score required_years candidate_years
         == Qmin (inject_Z candidate_years / 5) 1)%Q).
Proof.
  intros ratio. unfold exp_score. fold ratio.
  split; [|split; [|split]].
  - intros Hpos Hle. apply Z.gtb_lt in Hpos. rewrite Hpos.
    apply Qle_bool_iff in Hle. rewrite Hle. reflexivity.
  - intros Hpos. pose proof (inject_Z_pos _ Hpos) as Hq.
    apply Z.gtb_lt in Hpos. rewrite Hpos.
    assert (Hone : (inject_Z required_years / inject_Z required_years == 1)%Q)
      by (field; lra).
    destruct (Qle_bool _ 1) eqn:E; [exact Hone|].
    exfalso. assert (Hle : Qle_bool (inject_Z required_years / inject_Z required_years) 1 = true)
      by (apply Qle_bool_iff; rewrite Hone; apply Qle_refl).
    congruence.
  - intros Hpos Hgt. apply Z.gtb_lt in Hpos. rewrite Hpos.
    destruct (Qle_bool ratio 1) eqn:E.
    + apply Qle_bool_iff in E. lra.
    + split; [reflexivity|].
      pose proof (Q.le_min_r ((ratio - 1) * 0.1) 0.3). lra.
  - intros ->. reflexivity.
Qed.

Lemma experience_score_cases_witness :
  (exp_score 4 3 == 3 # 4)%Q
  /\ (exp_score 4 4 == 1)%Q
  /\ (exp_score 4 5 == 39 # 40)%Q
  /\ (0.7 <= exp_score 4 400)%Q
  /\ (exp_score 0 3 == 3 # 5)%Q.
Proof.
  destruct (experience_score_cases 4 3) as (H43 & _).
  destruct (experience_score_cases 4 4) as (_ & H44 & _).
  destruct (experience_score_cases 4 5) as (_ & _ & H45 & _).
  destruct (experience_score_cases 4 400) as (_ & _ & H4400 & _).
  destruct (experience_score_cases 0 3) as (_ & _ & _ & H03).
  split; [|split; [|split; [|split]]].
  - rewrite H43; [reflexivity | lia | vm_compute; discriminate].
  - apply H44; lia.
  - destruct H45 as [-> _]; [lia | reflexivity | reflexivity].
  - apply H4400; [lia | reflexivity].
  - rewrite H03; reflexivity.
Defined.

(** ** Combined score *)

Lemma shifted_roomy config job_skills job_exp_years :
  roomy config ->
  let sw := shifted_weights config job_skills job_exp_years in
  (0 <= w_text sw /\ 0 <= w_skills sw /\ 0 <= w_experience sw
   /\ 0 <= w_education sw /\ 0 < total_of sw)%Q.
Proof.
  intros (Ht & Hs & He & Hd). unfold shifted_weights, total_of.
  destruct (total_skill_count job_skills >? 15), (job_exp_years >? 7);
    cbn [w_text w_skills w_experience w_education]; repeat split; lra.
Qed.

Lemma weighted_mean_in_unit (a b c d t x y z u : Q) :
  (0 <= a -> 0 <= b -> 0 <= c -> 0 <= d -> 0 < t -> a + b + c + d == t ->
   unit_interval x -> unit_interval y -> unit_interval z -> unit_interval u ->
   unit_interval (a / t * x + b / t * y + c / t * z + d / t * u))%Q.
Proof.
  intros Ha Hb Hc Hd Ht Hsum [Hx0 Hx1] [Hy0 Hy1] [Hz0 Hz1] [Hu0 Hu1].
  assert (Hnz : ~ (t == 0)%Q) by lra.
  assert (E : (a / t * x + b / t * y + c / t * z + d / t * u
               == (a * x + b * y + c * z + d * u) / t)%Q) by (field; exact Hnz).
  unfold unit_interval. rewrite E. split.
  - apply Qle_shift_div_l; [exact Ht|]. nra.
  - apply Qle_shift_div_r; [exact Ht|]. nra.
Qed.




(** The same configuration through [rank_resumes]: a candidate whose
    components are 1/2, 1, 1 and 1 is ranked with a combined score above
    1. *)
Example cramped_ranking_above_one :
  exists r,
    rank_resumes cramped_config sample_clean sample_fit demanding_job
                 demanding_batch
    = Returns [r]
    /\ (text_similarity r == 1 # 2)%Q /\ (skill_score r == 1)%Q
    /\ (experience_score r == 1)%Q /\ (education_score r == 1)%Q
    /\ (combined_score r == 1.025)%Q.
Proof. eexists. split; [vm_compute; reflexivity|]. repeat split. Qed.

(** ** Ranking *)

Section Sorting.

Context {A : Type} (key : A -> Q).

Lemma insert_desc_permutation x l : Permutation (insert_desc key x l) (x :: l).
Proof.
  induction l as [|y l IH]; cbn.
  - reflexivity.
  - destruct (Qle_bool (key y) (key x)); [reflexivity|].
    rewrite IH. apply perm_swap.
Qed.

Lemma sorted_desc_permutation l : Permutation (sorted_desc key l) l.
Proof.
  induction l as [|x l IH]; cbn.
  - reflexivity.
  - rewrite insert_desc_permutation. apply perm_skip, IH.
Qed.

Lemma insert_desc_sorted x l :
  descending_by key l -> descending_by key (insert_desc key x l).
Proof.
  unfold descending_by. induction 1 as [|y l Hl IH Hy]; cbn.
  - repeat constructor.
  - destruct (Qle_bool (key y) (key x)) eqn:E.
    + apply Qle_bool_iff in E. constructor; [constructor; assumption|].
      constructor; [exact E|].
      eapply Forall_impl; [exact Hy|]. cbv beta.
      intros z Hz. apply Qle_trans with (key y); assumption.
    + constructor; [exact IH|].
      assert (Hlt : (key x < key y)%Q).
      { apply Qnot_le_lt. intros H. apply Qle_bool_iff in H. congruence. }
      eapply Permutation_Forall; [symmetry; apply insert_desc_permutation|].
      constructor; [apply Qlt_le_weak, Hlt | exact Hy].
Qed.

Lemma sorted_desc_sorted l : descending_by key (sorted_desc key l).
Proof.
  induction l as [|x l IH]; cbn.
  - constructor.
  - apply insert_desc_sorted, IH.
Qed.

Lemma insert_desc_keyed v x l :
  keyed key v (insert_desc key x l) = keyed key v (x :: l).
Proof.
  unfold keyed. induction l as [|y l IH]; cbn [insert_desc].
  - reflexivity.
  - destruct (Qle_bool (key y) (key x)) eqn:E; [reflexivity|].
    cbn [List.filter]. rewrite IH. cbn [List.filter].
    destruct (Qeq_bool (key x) v) eqn:Ex; [|reflexivity].
    destruct (Qeq_bool (key y) v) eqn:Ey; [|reflexivity].
    exfalso. apply Qeq_bool_iff in Ex, Ey.
    assert (H : Qle_bool (key y) (key x) = true).
    { apply Qle_bool_iff. rewrite Ex, Ey. apply Qle_refl. }
    congruence.
Qed.

Lemma sorted_desc_keyed v l :
  keyed key v (sorted_desc key l) = keyed key v l.
Proof.
  induction l as [|x l IH]; cbn [sorted_desc foldr].
  - reflexivity.
  - fold (sorted_desc key l). rewrite insert_desc_keyed.
    unfold keyed in *. cbn [List.filter]. rewrite IH. reflexivity.
Qed.

End Sorting.

Lemma returned_imap_names {B} (f : nat -> B -> outcome RankingResult)
    (name : B -> string) (l : list B) :
  (forall i x, exists r, f i x = Returns r /\ r_filename r = name x) ->
  map r_filename (returned (imap f l)) = map name l.
Proof.
  revert f. induction l as [|x l IH]; intros f Hf.
  - reflexivity.
  - rewrite imap_cons. destruct (Hf 0%nat x) as (r & -> & Hr).
    cbn [returned map]. rewrite Hr. f_equal.
    apply IH. intros i y. apply Hf.
Qed.

Lemma rank_resumes_returns (config : Config)
    (clean_text : string -> string)
    (fit_and_compare : string -> list string -> outcome (list Q))
    (job_description : string) (resumes_data : list ResumeData) :
  ~ (base_total config == 0)%Q ->
  exists scored ranked : list RankingResult,
    rank_resumes config clean_text fit_and_compare job_description resumes_data
    = Returns ranked
    /\ map r_filename scored = map filename resumes_data
    /\ Permutation ranked scored
    /\ descending ranked
    /\ forall v, with_score v ranked = with_score v scored.
Proof.
  intros Hne. unfold rank_resumes.
  destruct resumes_data as [|resume rest].
  - exists [], []. cbn. repeat split; try reflexivity. constructor.
  - set (processed := map _ (resume :: rest)).
    assert (Hnames : map p_filename processed = map filename (resume :: rest)).
    { unfold processed. rewrite map_map. reflexivity. }
    change (match processed with [] => ?a | _ :: _ => ?b end) with b.
    rewrite text_similarity_returns.
    rewrite (adaptive_weights_returned config _ _ Hne).
    cbn [mbind outcome_bind bind].
    eexists. eexists. split; [reflexivity|].
    split; [|split; [|split]].
    + rewrite <- Hnames. apply returned_imap_names.
      intros i x.
      edestruct score_resume_returns as (r & Hr & Hn & _).
      exists r. split; [exact Hr | exact Hn].
    + apply sorted_desc_permutation.
    + apply sorted_desc_sorted.
    + intros v. apply sorted_desc_keyed.
Qed.

Lemma rank_resumes_raised (config : Config)
    (clean_text : string -> string)
    (fit_and_compare : string -> list string -> outcome (list Q))
    (job_description : string) (resumes_data : list ResumeData) :
  (base_total config == 0)%Q -> resumes_data <> [] ->
  rank_resumes config clean_text fit_and_compare job_description resumes_data
  = Raises "ZeroDivisionError".
Proof.
  intros Hz Hne. unfold rank_resumes.
  destruct resumes_data as [|resume rest]; [contradiction|].
  cbn [map]. rewrite text_similarity_returns.
  rewrite (adaptive_weights_raised config _ _ Hz). reflexivity.
Qed.



(** On the sample batch the best candidate comes first and the two equal
    ones keep the order of the batch. *)
Example sample_ranking :
  exists ranked,
    rank_resumes default_config sample_clean sample_fit sample_job sample_batch
    = Returns ranked
    /\ map r_filename ranked = ["second.pdf"; "first.pdf"; "third.pdf"].
Proof. eexists. split; vm_compute; reflexivity. Qed.

(** * Further properties *)

(** ** The extractors *)

Lemma lower_char_idempotent (c : ascii) : lower_char (lower_char c) = lower_char c.
Proof. destruct c as [[] [] [] [] [] [] [] []]; vm_compute; reflexivity. Qed.

Lemma lower_idempotent (s : string) : lower (lower s) = lower s.
Proof.
  induction s as [|c s IH]; cbn; [reflexivity|].
  rewrite lower_char_idempotent, IH. reflexivity.
Qed.

Lemma lower_empty (s : string) : lower s = "" -> s = "".
Proof. destruct s; [reflexivity | discriminate]. Qed.

(** X1. The three extractors only read the lower-cased text: two texts
    that differ in letter case only give the same skills, the same years
    and the same education level. *)
Theorem extraction_ignores_case (a b : string) :
  lower a = lower b ->
  (forall reference,
     extract_dynamic_skills a reference = extract_dynamic_skills b reference)
  /\ extract_experience_years a = extract_experience_years b
  /\ extract_education a = extract_education b.
Proof.
  intros Hab. split; [|split].
  - intros reference. unfold extract_dynamic_skills.
    destruct a as [|ca a], b as [|cb b]; try discriminate; [reflexivity|].
    rewrite Hab. reflexivity.
  - unfold extract_experience_years, matched_years. rewrite Hab. reflexivity.
  - unfold extract_education. rewrite Hab. reflexivity.
Qed.

Lemma extraction_ignores_case_witness :
  extract_dynamic_skills "SEO and Excel" None = extract_dynamic_skills "seo and excel" None
  /\ extract_experience_years "5 YEARS of Experience" = extract_experience_years "5 years of experience"
  /\ extract_education "PhD" = extract_education "phd".
Proof.
  destruct (extraction_ignores_case "SEO and Excel" "seo and excel" eq_refl)
    as (Hs & _ & _).
  destruct (extraction_ignores_case "5 YEARS of Experience" "5 years of experience"
              eq_refl) as (_ & Hy & _).
  destruct (extraction_ignores_case "PhD" "phd" eq_refl) as (_ & _ & He).
  split; [apply Hs | split; [exact Hy | exact He]].
Defined.

Lemma highest_tier (found : list string -> bool) :
  match map fst (filter (fun entry => found (snd entry) = true) education_keywords) with
  | [] => 1
  | edu :: rest =>
      foldr Z.max (default 1 (dict_get edu education_scores))
            (map (fun e => default 1 (dict_get e education_scores)) rest)
  end
  = (if found (tier "phd") then 5
     else if found (tier "masters") then 4
     else if found (tier "bachelors") then 3
     else if found (tier "diploma") then 2
     else 1).
Proof.
  unfold education_keywords, tier.
  cbn [dict_get education_keywords String.eqb Ascii.eqb Bool.eqb default id].
  cbn -[Z.max].
  destruct (found ["phd"; "ph.d"; "doctorate"; "doctoral"]);
  destruct (found ["masters"; "master"; "mba"; "ms"; "ma"; "msc"; "mtech"; "meng"]);
  destruct (found ["bachelors"; "bachelor"; "bs"; "ba"; "bsc"; "btech"; "beng"; "degree"]);
  destruct (found ["diploma"; "certificate"; "associate"]);
  reflexivity.
Qed.

Lemma education_level_cascade (text : string) :
  extract_education text
  = (if mentions (tier "phd") (lower text) then 5
     else if mentions (tier "masters") (lower text) then 4
     else if mentions (tier "bachelors") (lower text) then 3
     else if mentions (tier "diploma") (lower text) then 2
     else 1).
Proof. exact (highest_tier (fun keywords => mentions keywords (lower text))). Qed.

Lemma education_level_range (text : string) : 1 <= extract_education text <= 5.
Proof.
  rewrite education_level_cascade.
  destruct (mentions _ _); [lia|].
  destruct (mentions _ _); [lia|].
  destruct (mentions _ _); [lia|].
  destruct (mentions _ _); lia.
Qed.

(** X2. The education level is that of the highest tier one of whose
    keywords occurs as a word: 5 for the doctorate, 4 for the masters, 3 for
    the bachelors, 2 for the diploma, and 1 when no keyword occurs; so it
    is always between 1 and 5. *)
Theorem education_level_highest_tier (text : string) :
  extract_education text
  = (if mentions (tier "phd") (lower text) then 5
     else if mentions (tier "masters") (lower text) then 4
     else if mentions (tier "bachelors") (lower text) then 3
     else if mentions (tier "diploma") (lower text) then 2
     else 1)
  /\ 1 <= extract_education text <= 5.
Proof. split; [apply education_level_cascade | apply education_level_range]. Qed.

(** ** Skills found and skill score *)

Lemma dict_set_fresh {V} (k : string) (v : V) (d : dict V) :
  ~ In k (map fst d) -> dict_set k v d = d ++ [(k, v)].
Proof.
  induction d as [|[k0 v0] d IH]; cbn; [reflexivity|].
  intros Hk. destruct (String.eqb k k0) eqn:E.
  - apply String.eqb_eq in E. exfalso. apply Hk. left. symmetry. exact E.
  - rewrite IH; [reflexivity|]. intros H. apply Hk. right. exact H.
Qed.

Lemma dict_get_In {V} (k : string) (v : V) (d : dict V) :
  NoDup (map fst d) -> In (k, v) d -> dict_get k d = Some v.
Proof.
  induction d as [|[k0 v0] d IH]; cbn; [intros _ []|].
  intros Hd Hin. apply NoDup_cons in Hd as [Hk0 Hd].
  destruct Hin as [E|Hin].
  - injection E as -> ->. rewrite String.eqb_refl. reflexivity.
  - destruct (String.eqb k k0) eqn:E.
    + apply String.eqb_eq in E. subst k0. exfalso. apply Hk0.
      apply list_elem_of_In, in_map_iff. exists (k, v). split; [reflexivity | exact Hin].
    + apply IH; assumption.
Qed.

Lemma kept_keys text_lower (l : skills_map) (k : string) :
  In k (map fst (flat_map (kept text_lower) l)) -> In k (map fst l).
Proof.
  induction l as [|[c skills] l IH]; cbn [flat_map map]; [intros []|].
  rewrite map_app, in_app_iff. intros [H|H].
  - unfold kept in H. cbn [fst snd] in H.
    destruct (filter _ skills); [destruct H|].
    destruct H as [<-|[]]. left. reflexivity.
  - right. apply IH, H.
Qed.

Lemma fold_collect_exact text_lower (pending found_skills : skills_map) :
  NoDup (map fst pending) ->
  (forall k, In k (map fst pending) -> ~ In k (map fst found_skills)) ->
  fold_left (collect_category text_lower) pending found_skills
  = found_skills ++ flat_map (kept text_lower) pending.
Proof.
  revert found_skills.
  induction pending as [|[c skills] pending IH]; intros found_skills Hd Hfresh.
  - cbn. rewrite app_nil_r. reflexivity.
  - cbn [map fst] in Hd. apply NoDup_cons in Hd as [Hc Hd].
    cbn [fold_left flat_map]. unfold collect_category at 2, kept at 1.
    cbn [fst snd].
    destruct (filter _ skills) as [|s category_skills] eqn:E.
    + rewrite IH; [reflexivity | exact Hd |].
      intros k Hk. apply Hfresh. right. exact Hk.
    + rewrite dict_set_fresh by (apply Hfresh; left; reflexivity).
      rewrite IH; [rewrite <- app_assoc; reflexivity | exact Hd |].
      intros k Hk. rewrite map_app, in_app_iff. intros [H|[<-|[]]].
      * apply (Hfresh k); [right; exact Hk | exact H].
      * apply Hc, list_elem_of_In, Hk.
Qed.

Lemma extract_dynamic_skills_exact (text : string) (reference : option skills_map) :
  NoDup (map fst (skills_to_search reference)) ->
  extract_dynamic_skills text reference
  = match text with
    | EmptyString => []
    | String _ _ => flat_map (kept (lower text)) (skills_to_search reference)
    end.
Proof.
  intros Hd. unfold extract_dynamic_skills. destruct text as [|c text]; [reflexivity|].
  rewrite fold_collect_exact; [reflexivity | exact Hd | intros k _ []].
Qed.

(** X3. When the mapping searched names each sector once, as a dictionary
    does, the skills found are its entries in order, each cut down to the
    phrases found in the text, in the order they are listed, and left out
    when no phrase is found; an empty text gives the empty mapping. *)
Theorem skills_found_in_reference_order (text : string)
    (reference : option skills_map) :
  NoDup (map fst (skills_to_search reference)) ->
  extract_dynamic_skills text reference
  = match text with
    | EmptyString => []
    | String _ _ => flat_map (kept (lower text)) (skills_to_search reference)
    end.
Proof. apply extract_dynamic_skills_exact. Qed.

Lemma skills_found_in_reference_order_witness :
  extract_dynamic_skills "Excel, SEO and SEM" (Some sixteen_skills)
  = flat_map (kept "excel, seo and sem") sixteen_skills.
Proof.
  apply (skills_found_in_reference_order "Excel, SEO and SEM" (Some sixteen_skills)).
  apply (bool_decide_unpack _). vm_compute. exact I.
Defined.

Lemma filter_all {A} (P : A -> Prop) `{forall x, Decision (P x)} (l : list A) :
  Forall P l -> filter P l = l.
Proof.
  induction 1 as [|x l Hx _ IH]; [reflexivity|].
  rewrite filter_cons, decide_True by exact Hx. f_equal. exact IH.
Qed.

Lemma filter_twice {A} (P : A -> Prop) `{forall x, Decision (P x)} (l : list A) :
  filter P (filter P l) = filter P l.
Proof.
  apply filter_all, Forall_forall. intros x Hx.
  apply list_elem_of_filter in Hx. apply Hx.
Qed.

Lemma kept_twice text_lower (l : skills_map) :
  flat_map (kept text_lower) (flat_map (kept text_lower) l)
  = flat_map (kept text_lower) l.
Proof.
  induction l as [|[c skills] l IH]; [reflexivity|].
  cbn [flat_map]. rewrite flat_map_app, IH. f_equal.
  unfold kept at 2 3. cbn [fst snd].
  destruct (filter _ skills) as [|s rest] eqn:E; [reflexivity|].
  cbn [flat_map]. rewrite app_nil_r. unfold kept. cbn [fst snd].
  rewrite <- E, filter_twice, E. reflexivity.
Qed.

Lemma kept_keys_distinct text_lower (l : skills_map) :
  NoDup (map fst l) -> NoDup (map fst (flat_map (kept text_lower) l)).
Proof.
  induction l as [|[c skills] l IH]; cbn [map flat_map]; [intros _; constructor|].
  intros Hd. apply NoDup_cons in Hd as [Hc Hd]. rewrite map_app.
  unfold kept at 1. cbn [fst snd].
  destruct (filter _ skills) as [|s rest]; cbn [map app]; [apply IH, Hd|].
  apply NoDup_cons. split; [|apply IH, Hd].
  intros H. apply Hc. apply list_elem_of_In. apply list_elem_of_In in H.
  apply (kept_keys text_lower), H.
Qed.

Lemma kept_nonempty text_lower (l : skills_map) :
  Forall (fun entry => snd entry <> []) (flat_map (kept text_lower) l).
Proof.
  induction l as [|[c skills] l IH]; cbn [flat_map]; [constructor|].
  apply Forall_app. split; [|exact IH].
  unfold kept. cbn [fst snd].
  destruct (filter _ skills); repeat constructor. discriminate.
Qed.

Lemma taxonomy_search_distinct (text : string) :
  NoDup (map fst (extract_dynamic_skills text None))
  /\ Forall (fun entry => snd entry <> []) (extract_dynamic_skills text None).
Proof.
  rewrite extract_dynamic_skills_exact by apply taxonomy_distinct.
  destruct text as [|c text]; [split; constructor|].
  split; [apply kept_keys_distinct, taxonomy_distinct | apply kept_nonempty].
Qed.

Lemma search_for_own_skills (text : string) :
  extract_dynamic_skills text (Some (extract_dynamic_skills text None))
  = extract_dynamic_skills text None.
Proof.
  destruct (extract_dynamic_skills text None) as [|entry rest] eqn:E.
  - exact E.
  - rewrite <- E.
    pose proof (extract_dynamic_skills_exact text None (proj1 taxonomy_distinct)) as Hx.
    destruct text as [|c text]; [rewrite E in Hx; discriminate|].
    rewrite extract_dynamic_skills_exact.
    + rewrite E. cbn [skills_to_search]. rewrite <- E, Hx. apply kept_twice.
    + rewrite E. cbn [skills_to_search]. rewrite <- E.
      apply taxonomy_search_distinct.
Qed.

Lemma total_skill_count_cons c skills (rest : skills_map) :
  total_skill_count ((c, skills) :: rest)
  = Z.of_nat (length skills) + total_skill_count rest.
Proof. reflexivity. Qed.

Lemma total_skill_count_nonnegative (d : skills_map) : 0 <= total_skill_count d.
Proof.
  induction d as [|[c skills] d IH]; [cbn; lia|].
  rewrite total_skill_count_cons. lia.
Qed.

Lemma phrases_also_found_bounds (job_skills resume_skills : skills_map) :
  0 <= phrases_also_found job_skills resume_skills <= total_skill_count job_skills.
Proof.
  induction job_skills as [|[c skills] rest IH]; [cbn; lia|].
  rewrite total_skill_count_cons. unfold phrases_also_found in *.
  cbn [map foldr].
  destruct (dict_get c resume_skills) as [found|]; [|lia].
  pose proof (length_filter (fun phrase => phrase ∈ found) (remove_dups skills)).
  assert (length (remove_dups skills) <= length skills)%nat.
  { clear. induction skills as [|x l IH]; cbn [remove_dups length]; [lia|].
    destruct (decide_rel elem_of x l); cbn [length]; lia. }
  lia.
Qed.

Lemma phrases_also_found_self (sub job_skills : skills_map) :
  NoDup (map fst job_skills) -> distinct_phrases sub ->
  (forall entry, In entry sub -> In entry job_skills) ->
  phrases_also_found sub job_skills = total_skill_count sub.
Proof.
  intros Hkeys Hd Hsub.
  induction sub as [|[c skills] rest IH]; [reflexivity|].
  rewrite total_skill_count_cons. unfold phrases_also_found in *.
  cbn [map foldr].
  rewrite (dict_get_In c skills job_skills Hkeys) by (apply Hsub; left; reflexivity).
  inversion Hd as [|? ? Hskills Hrest]; subst. cbn [snd] in Hskills.
  rewrite IH; [|exact Hrest | intros e He; apply Hsub; right; exact He].
  rewrite (remove_dups_NoDup skills Hskills).
  rewrite filter_all by (apply Forall_forall; auto). reflexivity.
Qed.

(** X4. A resume whose text is the job description has exactly the
    required skills, and when the job requires any skill its skill score
    is 1. *)
Theorem job_text_has_all_required_skills (clean_text : string -> string)
    (job_description file : string) (path : option string) (resume_sector : string) :
  let job_skills := skills_required (analyze_job_description job_description) in
  let parsed := parse_resume clean_text job_description file (Some job_skills)
                             path resume_sector in
  p_skills parsed = job_skills
  /\ (job_skills <> [] ->
      exists score breakdown,
        calculate_advanced_skill_match job_skills (p_skills parsed)
        = Returns (score, breakdown)
        /\ (score == 1)%Q).
Proof.
  cbn [skills_required analyze_job_description p_skills parse_resume].
  rewrite search_for_own_skills. split; [reflexivity|].
  intros Hne.
  destruct (taxonomy_search_distinct job_description) as [Hkeys Hfull].
  pose proof (job_skills_distinct job_description) as Hd.
  cbn [skills_required analyze_job_description] in Hd.
  set (job_skills := extract_dynamic_skills job_description None) in *.
  assert (Hpos : 0 < total_skill_count job_skills).
  { destruct job_skills as [|[c skills] rest]; [contradiction|].
    rewrite total_skill_count_cons.
    pose proof (total_skill_count_nonnegative rest).
    inversion Hfull as [|? ? Hs _]; subst. cbn [snd] in Hs.
    destruct skills; [contradiction | cbn [length]; lia]. }
  destruct (skill_match_with_skills job_skills job_skills) as [bd Hbd]; [lia|].
  eexists. exists bd. split; [exact Hbd|].
  rewrite phrases_also_found_self by (assumption || auto).
  field. apply inject_Z_nonzero. lia.
Qed.

Lemma job_text_has_all_required_skills_witness :
  exists score breakdown,
    calculate_advanced_skill_match
      (skills_required (analyze_job_description sample_job))
      (p_skills (parse_resume sample_clean sample_job "job.pdf"
                   (Some (skills_required (analyze_job_description sample_job)))
                   None "General"))
    = Returns (score, breakdown)
    /\ (score == 1)%Q.
Proof.
  apply (job_text_has_all_required_skills sample_clean sample_job "job.pdf" None
           "General").
  vm_compute. discriminate.
Defined.

Lemma skill_match_in_unit (job_skills resume_skills : skills_map) :
  exists score breakdown,
    calculate_advanced_skill_match job_skills resume_skills
    = Returns (score, breakdown)
    /\ unit_interval score.
Proof.
  destruct (Z.eq_dec (total_skill_count job_skills) 0) as [E|E].
  - rewrite skill_match_without_skills by exact E.
    eexists. eexists. split; [reflexivity|]. split; discriminate.
  - destruct (skill_match_with_skills job_skills resume_skills E) as [bd Hbd].
    eexists. exists bd. split; [exact Hbd|].
    pose proof (phrases_also_found_bounds job_skills resume_skills) as [Hlo Hhi].
    pose proof (total_skill_count_nonnegative job_skills).
    assert (Hpos : (0 < inject_Z (total_skill_count job_skills))%Q)
      by (apply inject_Z_pos; lia).
    split.
    + apply Qle_shift_div_l; [exact Hpos|]. rewrite Qmult_0_l.
      change 0%Q with (inject_Z 0). rewrite <- Zle_Qle. exact Hlo.
    + apply Qle_shift_div_r; [exact Hpos|]. rewrite Qmult_1_l.
      rewrite <- Zle_Qle. exact Hhi.
Qed.

(** X5. Whatever the two mappings, the skill score is between 0 and 1. *)
Theorem skill_score_in_unit_interval (job_skills resume_skills : skills_map) :
  exists score breakdown,
    calculate_advanced_skill_match job_skills resume_skills
    = Returns (score, breakdown)
    /\ unit_interval score.
Proof. apply skill_match_in_unit. Qed.

Lemma common_spec (a b : list string) (phrase : string) :
  In phrase (common a b) <-> In phrase a /\ In phrase b.
Proof.
  unfold common, set_of.
  rewrite <- !list_elem_of_In, elem_of_elements, elem_of_intersection,
    !elem_of_list_to_set.
  reflexivity.
Qed.

Lemma lacking_spec (a b : list string) (phrase : string) :
  In phrase (lacking a b) <-> In phrase a /\ ~ In phrase b.
Proof.
  unfold lacking, set_of.
  rewrite <- !list_elem_of_In, elem_of_elements, elem_of_difference,
    !elem_of_list_to_set.
  reflexivity.
Qed.

Lemma breakdown_line_accounts resume_skills entry :
  accounts_for resume_skills entry (breakdown_line resume_skills entry).
Proof.
  unfold accounts_for, breakdown_line, listed_under. cbn [fst snd].
  destruct (dict_get (fst entry) resume_skills) as [found|];
    cbn [required matched matched_skills missing_skills default id];
    (split; [reflexivity|]); (split; [reflexivity|]); (split; [reflexivity|]);
    split; intros phrase.
  - apply common_spec.
  - apply lacking_spec.
  - split; [intros [] | intros [_ []]].
  - split; [intros H; split; [exact H | intros []] | intros [H _]; exact H].
Qed.

Lemma fold_match_category resume_skills (pending : skills_map)
    (breakdown : dict Breakdown) (n : Z) :
  NoDup (map fst pending) ->
  (forall k, In k (map fst pending) -> ~ In k (map fst breakdown)) ->
  fst (fold_left (match_category resume_skills) pending (breakdown, n))
  = breakdown ++ map (breakdown_line resume_skills) pending.
Proof.
  revert breakdown n.
  induction pending as [|[c skills] pending IH]; intros breakdown n Hd Hfresh.
  - cbn. rewrite app_nil_r. reflexivity.
  - cbn [map fst] in Hd. apply NoDup_cons in Hd as [Hc Hd].
    cbn [fold_left map]. unfold match_category at 2, breakdown_line at 1.
    cbn [fst snd].
    assert (Hfresh' : forall v : Breakdown,
               forall k, In k (map fst pending) ->
                         ~ In k (map fst (breakdown ++ [(c, v)]))).
    { intros v k Hk. rewrite map_app, in_app_iff. intros [H|[<-|[]]].
      - apply (Hfresh k); [right; exact Hk | exact H].
      - apply Hc, list_elem_of_In, Hk. }
    destruct (dict_get c resume_skills) as [found|];
      rewrite dict_set_fresh by (apply Hfresh; left; reflexivity);
      (rewrite IH; [rewrite <- app_assoc; reflexivity | exact Hd | apply Hfresh']).
Qed.

Lemma skill_match_breakdown (job_skills resume_skills : skills_map) :
  NoDup (map fst job_skills) ->
  total_skill_count job_skills <> 0 ->
  exists score,
    calculate_advanced_skill_match job_skills resume_skills
    = Returns (score, map (breakdown_line resume_skills) job_skills).
Proof.
  intros Hd Hnz. unfold calculate_advanced_skill_match.
  apply Z.eqb_neq in Hnz as Hb. rewrite Hb.
  destruct (fold_left (match_category resume_skills) job_skills ([], 0))
    as [breakdown matched_count] eqn:Hm.
  apply (f_equal fst) in Hm.
  rewrite fold_match_category in Hm by (exact Hd || intros k _ []).
  cbn [fst app] in Hm. subst breakdown.
  rewrite fdiv_returns by (apply inject_Z_nonzero, Hnz).
  eexists. reflexivity.
Qed.

(** X6. For a requirement that names each sector once and has some
    phrase, the breakdown has one line per sector of the requirement, in
    its order: the line counts the phrases required, its matched phrases
    are those of the requirement the candidate lists under the sector, its
    missing phrases are the others, and its matched count is the number of
    matched phrases. *)
Theorem breakdown_accounts_for_requirement (job_skills resume_skills : skills_map) :
  NoDup (map fst job_skills) ->
  total_skill_count job_skills <> 0 ->
  exists score breakdown,
    calculate_advanced_skill_match job_skills resume_skills
    = Returns (score, breakdown)
    /\ Forall2 (accounts_for resume_skills) job_skills breakdown.
Proof.
  intros Hd Hnz.
  destruct (skill_match_breakdown job_skills resume_skills Hd Hnz) as [score Hs].
  eexists. eexists. split; [exact Hs|].
  clear. induction job_skills as [|entry rest IH]; constructor.
  - apply breakdown_line_accounts.
  - exact IH.
Qed.

Lemma breakdown_accounts_for_requirement_witness :
  exists score breakdown,
    calculate_advanced_skill_match sixteen_skills [("MARKETING", ["seo"; "ppc"])]
    = Returns (score, breakdown)
    /\ Forall2 (accounts_for [("MARKETING", ["seo"; "ppc"])]) sixteen_skills breakdown.
Proof.
  apply (breakdown_accounts_for_requirement sixteen_skills
           [("MARKETING", ["seo"; "ppc"])]).
  - apply (bool_decide_unpack _). vm_compute. exact I.
  - vm_compute. discriminate.
Defined.

(** ** Component scores *)

Lemma edu_score_range (required_level candidate_level : Z) :
  1 <= candidate_level ->
  (0 < edu_score required_level candidate_level)%Q
  /\ (edu_score required_level candidate_level <= 1)%Q
  /\ ((edu_score required_level candidate_level == 1)%Q
      <-> Z.max required_level 3 <= candidate_level).
Proof.
  intros Hc. unfold edu_score.
  set (m := Z.max required_level 3).
  assert (Hm : 3 <= m) by (unfold m; lia).
  assert (Hmq : (0 < inject_Z m)%Q) by (apply inject_Z_pos; lia).
  assert (Hcq : (0 < inject_Z candidate_level)%Q) by (apply inject_Z_pos; lia).
  assert (Hratio : (0 < inject_Z candidate_level / inject_Z m)%Q).
  { apply Qlt_shift_div_l; [exact Hmq|]. rewrite Qmult_0_l. exact Hcq. }
  assert (Hiff : (1 <= inject_Z candidate_level / inject_Z m)%Q <-> m <= candidate_level).
  { split.
    - intros H. rewrite Zle_Qle.
      apply (Qmult_le_r _ _ (inject_Z m) Hmq) in H.
      rewrite Qmult_1_l in H.
      assert (E : (inject_Z candidate_level / inject_Z m * inject_Z m
                   == inject_Z candidate_level)%Q) by (field; lra).
      rewrite E in H. exact H.
    - intros H. apply Qle_shift_div_l; [exact Hmq|]. rewrite Qmult_1_l.
      rewrite <- Zle_Qle. exact H. }
  destruct (Q.min_spec (inject_Z candidate_level / inject_Z m) 1) as [[Hlt E]|[Hle E]];
    rewrite E.
  - split; [exact Hratio|]. split; [lra|]. split.
    + intros H1. lra.
    + intros H. apply Hiff in H. lra.
  - split; [reflexivity|]. split; [lra|]. split.
    + intros _. apply Hiff, Hle.
    + reflexivity.
Qed.

(** X7. The education score of a candidate level of at least 1, the least
    [extract_education] gives, is above 0 and at most 1, and it is 1
    exactly when the level reaches the required level and 3. *)
Theorem education_score_bounds (required_level candidate_level : Z) :
  1 <= candidate_level ->
  (0 < edu_score required_level candidate_level)%Q
  /\ (edu_score required_level candidate_level <= 1)%Q
  /\ ((edu_score required_level candidate_level == 1)%Q
      <-> Z.max required_level 3 <= candidate_level).
Proof. apply edu_score_range. Qed.

Lemma education_score_bounds_witness :
  (0 < edu_score 3 4)%Q /\ (edu_score 3 4 <= 1)%Q
  /\ ((edu_score 3 4 == 1)%Q <-> Z.max 3 3 <= 4).
Proof. apply (education_score_bounds 3 4). lia. Defined.

Lemma exp_score_range (required_years candidate_years : Z) :
  (exp_score required_years candidate_years <= 1)%Q
  /\ (0 <= candidate_years ->
      (0 <= exp_score required_years candidate_years)%Q).
Proof.
  unfold exp_score.
  assert (Hc : 0 <= candidate_years -> (0 <= inject_Z candidate_years)%Q).
  { intros H. change 0%Q with (inject_Z 0). rewrite <- Zle_Qle. exact H. }
  destruct (required_years >? 0) eqn:Hr.
  - apply Z.gtb_lt in Hr. pose proof (inject_Z_pos _ Hr) as Hrq.
    set (ratio := (inject_Z candidate_years / inject_Z required_years)%Q).
    destruct (Qle_bool ratio 1) eqn:E.
    + apply Qle_bool_iff in E. split; [exact E|].
      intros H. apply Qle_shift_div_l; [exact Hrq|].
      rewrite Qmult_0_l. apply Hc, H.
    + assert (Hgt : (1 < ratio)%Q).
      { apply Qnot_le_lt. intros H. apply Qle_bool_iff in H. congruence. }
      pose proof (Q.le_min_r ((ratio - 1) * 0.1) 0.3).
      assert ((0 <= Qmin ((ratio - 1) * 0.1) 0.3)%Q).
      { apply Q.min_glb; lra. }
      split; [lra | intros _; lra].
  - split; [apply Q.le_min_r|].
    intros H. apply Q.min_glb; [|discriminate].
    apply Qle_shift_div_l; [reflexivity|]. rewrite Qmult_0_l. apply Hc, H.
Qed.

(** X8. The experience score is never above 1, and for a candidate with no
    negative count of years it is not below 0. *)
Theorem experience_score_bounds (required_years candidate_years : Z) :
  (exp_score required_years candidate_years <= 1)%Q
  /\ (0 <= candidate_years ->
      (0 <= exp_score required_years candidate_years)%Q).
Proof. apply exp_score_range. Qed.

Lemma experience_score_bounds_witness :
  (exp_score 4 9 <= 1)%Q /\ (0 <= exp_score 4 9)%Q.
Proof.
  destruct (experience_score_bounds 4 9) as [Hhi Hlo].
  split; [exact Hhi | apply Hlo; lia].
Defined.

(** ** The ranking as a whole *)

Lemma score_resume_fields job_analysis weights sims i resume :
  exists skill breakdown,
    calculate_advanced_skill_match (skills_required job_analysis) (p_skills resume)
    = Returns (skill, breakdown)
    /\ score_resume job_analysis weights sims i resume
       = Returns
           {| r_filename := p_filename resume;
              r_sector := p_sector resume;
              combined_score :=
                combine weights (nth i sims 0%Q) skill
                  (exp_score (experience_required job_analysis)
                             (p_experience_years resume))
                  (edu_score (education_required job_analysis)
                             (p_education_score resume));
              text_similarity := nth i sims 0%Q;
              skill_score := skill;
              experience_score :=
                exp_score (experience_required job_analysis)
                          (p_experience_years resume);
              education_score :=
                edu_score (education_required job_analysis)
                          (p_education_score resume);
              experience_years := p_experience_years resume;
              education_level := p_education_score resume;
              skills_found := p_skills resume;
              match_percentage :=
                (combine weights (nth i sims 0%Q) skill
                   (exp_score (experience_required job_analysis)
                              (p_experience_years resume))
                   (edu_score (education_required job_analysis)
                              (p_education_score resume)) * 100)%Q;
              recommendations :=
                generate_recommendations breakdown
                  (Z.max 0 (experience_required job_analysis
                            - p_experience_years resume))
                  (Z.max 0 (education_required job_analysis
                            - p_education_score resume));
              r_file_path := p_file_path resume |}.
Proof.
  destruct (skill_match_returns (skills_required job_analysis) (p_skills resume))
    as (skill & breakdown & Hs).
  exists skill, breakdown. split; [exact Hs|].
  unfold score_resume. rewrite Hs. reflexivity.
Qed.

Lemma rank_resumes_unfolded (config : Config) (clean_text : string -> string)
    (fit_and_compare : string -> list string -> outcome (list Q))
    (job_description : string) (resumes_data : list ResumeData) :
  ~ (base_total config == 0)%Q ->
  let job_analysis := analyze_job_description job_description in
  let processed :=
    map (fun resume =>
           parse_resume clean_text (text resume) (filename resume)
                        (Some (skills_required job_analysis))
                        (file_path resume) (sector resume))
        resumes_data in
  exists sims weights,
    calculate_text_similarity fit_and_compare (clean_text job_description)
                              (map p_text processed) = Returns sims
    /\ _calculate_adaptive_weights config (skills_required job_analysis)
                                   (experience_required job_analysis)
       = Returns weights
    /\ rank_resumes config clean_text fit_and_compare job_description resumes_data
       = Returns (sorted_desc combined_score
                    (returned (imap (score_resume job_analysis weights sims)
                                    processed))).
Proof.
  intros Hne job_analysis processed.
  eexists. eexists. split; [apply text_similarity_returns|].
  split; [apply adaptive_weights_returned, Hne|].
  unfold rank_resumes. fold job_analysis. fold processed.
  destruct resumes_data as [|resume rest]; [reflexivity|].
  change (match processed with [] => ?a | _ :: _ => ?b end) with b.
  rewrite text_similarity_returns.
  rewrite (adaptive_weights_returned config _ _ Hne). reflexivity.
Qed.

Lemma returned_imap_Forall {A B} (f : nat -> A -> outcome B) (P : B -> Prop)
    (l : list A) :
  (forall i x r, In x l -> f i x = Returns r -> P r) ->
  Forall P (returned (imap f l)).
Proof.
  revert f. induction l as [|x l IH]; intros f Hf; [constructor|].
  rewrite imap_cons.
  assert (Hrest : Forall P (returned (imap (f ∘ S) l))).
  { apply IH. intros i y r Hy Hr. apply (Hf (S i) y r); [right; exact Hy | exact Hr]. }
  destruct (f 0%nat x) as [r|e] eqn:E; cbn [returned]; [|exact Hrest].
  constructor; [|exact Hrest]. apply (Hf 0%nat x r); [left; reflexivity | exact E].
Qed.

Lemma sorted_desc_Forall {A} (key : A -> Q) (P : A -> Prop) (l : list A) :
  Forall P l -> Forall P (sorted_desc key l).
Proof.
  intros H. eapply Permutation_Forall; [|exact H].
  symmetry. apply sorted_desc_permutation.
Qed.

Lemma text_similarity_bounded fit_and_compare job texts sims :
  bounded_fit fit_and_compare ->
  calculate_text_similarity fit_and_compare job texts = Returns sims ->
  Forall unit_interval sims.
Proof.
  intros Hfit. rewrite text_similarity_returns. intros [= <-].
  destruct texts as [|t rest]; [constructor|].
  destruct (fit_and_compare job (t :: rest)) as [found|e] eqn:E.
  - apply (Hfit _ _ _ E).
  - apply Forall_forall. intros x Hx. apply list_elem_of_In, repeat_spec in Hx.
    subst x. split; discriminate.
Qed.

Lemma nth_unit_interval (sims : list Q) (i : nat) :
  Forall unit_interval sims -> unit_interval (nth i sims 0%Q).
Proof.
  intros H. destruct (Nat.lt_ge_cases i (length sims)) as [Hi|Hi].
  - rewrite Forall_forall in H. apply H, list_elem_of_In, nth_In, Hi.
  - rewrite nth_overflow by exact Hi. split; discriminate.
Qed.



Lemma no_recommendation (skill_breakdown : dict Breakdown)
    (experience_gap education_gap : Z) :
  generate_recommendations skill_breakdown experience_gap education_gap = []
  <-> missing_pool skill_breakdown = [] /\ experience_gap <= 0 /\ education_gap <= 0.
Proof.
  unfold generate_recommendations. rewrite fold_collect_missing, app_nil_l.
  destruct (missing_pool skill_breakdown) as [|m ms];
    destruct (experience_gap >? 0) eqn:Ee; destruct (education_gap >? 0) eqn:Ed;
    cbn [app]; rewrite Z.gtb_ltb in Ee, Ed;
    try apply Z.ltb_lt in Ee; try apply Z.ltb_ge in Ee;
    try apply Z.ltb_lt in Ed; try apply Z.ltb_ge in Ed;
    split; try discriminate; try (intros (H & ? & ?); (discriminate H || lia));
    intros _; repeat split; assumption.
Qed.

Lemma lines_without_missing (resume_skills job_skills : skills_map) :
  missing_pool (map (breakdown_line resume_skills) job_skills) = []
  <-> covers resume_skills job_skills.
Proof.
  rewrite missing_pool_nil, Forall_forall. unfold covers. split.
  - intros H category skills phrase Hin Hp.
    specialize (H (breakdown_line resume_skills (category, skills))).
    destruct (breakdown_line_accounts resume_skills (category, skills))
      as (_ & _ & _ & _ & Hmiss). cbn [fst snd] in Hmiss.
    destruct (decide (phrase ∈ listed_under category resume_skills)) as [Hl|Hl];
      [apply list_elem_of_In, Hl|].
    exfalso.
    assert (Hm : In phrase (missing_skills
                   (snd (breakdown_line resume_skills (category, skills))))).
    { apply Hmiss. split; [exact Hp|]. intros Hc. apply Hl, list_elem_of_In, Hc. }
    rewrite H in Hm; [destruct Hm|].
    apply list_elem_of_In, in_map. exact Hin.
  - intros H line Hline.
    apply list_elem_of_In, in_map_iff in Hline as ([category skills] & <- & Hin).
    destruct (breakdown_line_accounts resume_skills (category, skills))
      as (_ & _ & _ & _ & Hmiss). cbn [fst snd] in Hmiss.
    destruct (missing_skills (snd (breakdown_line resume_skills (category, skills))))
      as [|m ms] eqn:E; [reflexivity|].
    exfalso. destruct (proj1 (Hmiss m) (or_introl eq_refl)) as [Hp Hn].
    apply Hn, (H category skills m Hin Hp).
Qed.

Lemma nonempty_lists_count (d : skills_map) :
  d <> [] -> Forall (fun entry => snd entry <> []) d -> total_skill_count d <> 0.
Proof.
  intros Hne Hfull. destruct d as [|[c skills] rest]; [contradiction|].
  rewrite total_skill_count_cons.
  pose proof (total_skill_count_nonnegative rest).
  inversion Hfull as [|? ? Hs _]; subst. cbn [snd] in Hs.
  destruct skills; [contradiction | cbn [length]; lia].
Qed.

(** X10. In the ranking of a job description, a candidate gets no
    recommendation exactly when its years reach the required years, its
    education level reaches the required level, and it lists every
    required phrase under the sector that requires it. *)
Theorem no_recommendation_when_requirements_met (job_description : string)
    (weights : Weights) (sims : list Q) (i : nat) (resume : Parsed) :
  let job_analysis := analyze_job_description job_description in
  exists r,
    score_resume job_analysis weights sims i resume = Returns r
    /\ (recommendations r = []
        <-> experience_required job_analysis <= experience_years r
            /\ education_required job_analysis <= education_level r
            /\ covers (skills_found r) (skills_required job_analysis)).
Proof.
  intros job_analysis.
  destruct (score_resume_fields job_analysis weights sims i resume)
    as (skill & bd & Hskill & Hfields).
  eexists. split; [exact Hfields|].
  cbn [recommendations experience_years education_level skills_found].
  rewrite no_recommendation.
  assert (Hpool : missing_pool bd = []
                  <-> covers (p_skills resume) (skills_required job_analysis)).
  { destruct (taxonomy_search_distinct job_description) as [Hkeys Hfull].
    change (extract_dynamic_skills job_description None)
      with (skills_required job_analysis) in Hkeys, Hfull.
    destruct (skills_required job_analysis) as [|entry rest] eqn:E.
    - rewrite skill_match_without_skills in Hskill by reflexivity.
      injection Hskill as _ <-. split; [intros _ c s p [] | reflexivity].
    - rewrite <- E in *.
      destruct (skill_match_breakdown (skills_required job_analysis)
                  (p_skills resume) Hkeys) as [score Hs].
      + apply nonempty_lists_count; [rewrite E; discriminate | exact Hfull].
      + rewrite Hskill in Hs. injection Hs as _ ->.
        apply lines_without_missing. }
  rewrite Hpool. split.
  - intros (Hc & He & Hd). repeat split; [lia | lia | exact Hc].
  - intros (He & Hd & Hc). repeat split; [exact Hc | lia | lia].
Qed.



(** ** The analysis of the job description *)

Lemma occurrences_nonnegative text_lower skills : 0 <= occurrences text_lower skills.
Proof. unfold occurrences. lia. Qed.

Lemma fold_score_sector text_lower (pending : skills_map) (sector_scores : dict Z) :
  NoDup (map fst pending) ->
  (forall k, In k (map fst pending) -> ~ In k (map fst sector_scores)) ->
  fold_left (score_sector text_lower) pending sector_scores
  = sector_scores
    ++ List.filter (fun item => 0 <? snd item)
         (flat_map (fun entry : string * list string =>
                      if String.eqb (fst entry) "SOFT-SKILLS" then []
                      else [(fst entry, occurrences text_lower (snd entry))])
                   pending).
Proof.
  revert sector_scores.
  induction pending as [|[c skills] pending IH]; intros sector_scores Hd Hfresh.
  - cbn. rewrite app_nil_r. reflexivity.
  - cbn [map fst] in Hd. apply NoDup_cons in Hd as [Hc Hd].
    cbn [fold_left flat_map]. unfold score_sector at 2. cbn [fst snd].
    destruct (String.eqb c "SOFT-SKILLS").
    + cbn [app]. apply IH; [exact Hd|].
      intros k Hk. apply Hfresh. right. exact Hk.
    + cbn [app List.filter snd]. rewrite Z.gtb_ltb.
      destruct (0 <? occurrences text_lower skills).
      * rewrite dict_set_fresh by (apply Hfresh; left; reflexivity).
        rewrite IH; [rewrite <- app_assoc; reflexivity | exact Hd |].
        intros k Hk. rewrite map_app, in_app_iff. intros [H|[<-|[]]].
        -- apply (Hfresh k); [right; exact Hk | exact H].
        -- apply Hc, list_elem_of_In, Hk.
      * apply IH; [exact Hd|]. intros k Hk. apply Hfresh. right. exact Hk.
Qed.

Lemma max_by_spec {A} (key : A -> Z) (rest : list A) :
  forall (best : A) (lower_part weaker : list A),
    Forall (fun x => key x < key best) lower_part ->
    Forall (fun x => key x <= key best) weaker ->
    exists before after,
      lower_part ++ best :: weaker ++ rest
      = before ++ max_by key best rest :: after
      /\ Forall (fun x => key x < key (max_by key best rest)) before
      /\ Forall (fun x => key x <= key (max_by key best rest)) after.
Proof.
  induction rest as [|x rest IH]; intros best lower_part weaker Hl Hw.
  - exists lower_part, weaker. rewrite app_nil_r. cbn. auto.
  - cbn [max_by]. destruct (key x >? key best) eqn:E.
    + apply Z.gtb_lt in E.
      destruct (IH x (lower_part ++ best :: weaker) []) as (b & a & Heq & Hb & Ha).
      * apply Forall_app. split.
        -- eapply Forall_impl; [exact Hl|]. cbv beta. intros; lia.
        -- constructor; [exact E|].
           eapply Forall_impl; [exact Hw|]. cbv beta. intros; lia.
      * constructor.
      * exists b, a. split; [|split; assumption].
        rewrite <- Heq. cbn [app]. rewrite <- !app_assoc. reflexivity.
    + rewrite Z.gtb_ltb in E. apply Z.ltb_ge in E.
      destruct (IH best lower_part (weaker ++ [x])) as (b & a & Heq & Hb & Ha).
      * exact Hl.
      * apply Forall_app. split; [exact Hw | repeat constructor; exact E].
      * exists b, a. split; [|split; assumption].
        rewrite <- Heq. rewrite <- !app_assoc. reflexivity.
Qed.

Lemma filter_split {A} (P : A -> bool) (l before after : list A) (r : A) :
  List.filter P l = before ++ r :: after ->
  exists before' after',
    l = before' ++ r :: after'
    /\ List.filter P before' = before /\ List.filter P after' = after.
Proof.
  revert before. induction l as [|x l IH]; intros before H; cbn in H.
  - destruct before; discriminate.
  - destruct (P x) eqn:E.
    + destruct before as [|b before]; cbn in H.
      * injection H as -> H. exists [], l. repeat split. exact H.
      * injection H as -> H. destruct (IH before H) as (b' & a' & -> & Hb & Ha).
        exists (b :: b'), a'. cbn. rewrite E, Hb. repeat split. exact Ha.
    + destruct (IH before H) as (b' & a' & -> & Hb & Ha).
      exists (x :: b'), a'. cbn. rewrite E. repeat split; assumption.
Qed.

Lemma sector_counts_nonnegative text_lower :
  Forall (fun item => 0 <= snd item) (sector_counts text_lower).
Proof.
  unfold sector_counts. induction universal_skills as [|[c skills] l IH];
    cbn [flat_map]; [constructor|].
  apply Forall_app. split; [|exact IH]. cbn [fst snd].
  destruct (String.eqb c "SOFT-SKILLS"); repeat constructor.
  apply occurrences_nonnegative.
Qed.

Lemma sector_counts_keys text_lower :
  Forall (fun item => In (fst item) (map fst universal_skills)
                      /\ fst item <> "SOFT-SKILLS")
         (sector_counts text_lower).
Proof.
  unfold sector_counts. induction universal_skills as [|[c skills] l IH];
    cbn [flat_map map]; [constructor|].
  apply Forall_app. split.
  - cbn [fst snd]. destruct (String.eqb c "SOFT-SKILLS") eqn:E; repeat constructor.
    apply String.eqb_neq, E.
  - eapply Forall_impl; [exact IH|]. cbv beta. intros item [H1 H2].
    split; [right; exact H1 | exact H2].
Qed.

Lemma detect_sector_unfolded text :
  _detect_sector text
  = match List.filter (fun item => 0 <? snd item) (sector_counts (lower text)) with
    | [] => "GENERAL"
    | item :: rest => fst (max_by snd item rest)
    end.
Proof.
  unfold _detect_sector, sector_counts.
  pose proof (proj1 taxonomy_distinct) as Hd.
  revert Hd. generalize universal_skills. intros taxonomy Hd.
  rewrite (fold_score_sector (lower text) taxonomy [] Hd).
  - reflexivity.
  - intros k _ [].
Qed.

Lemma best_of_counts (counts : dict Z) :
  Forall (fun item => 0 <= snd item) counts ->
  forall detected,
    detected = match List.filter (fun item => 0 <? snd item) counts with
               | [] => "GENERAL"
               | item :: rest => fst (max_by snd item rest)
               end ->
    Forall (fun item => snd item = 0) counts /\ detected = "GENERAL"
    \/ exists before score after,
         counts = before ++ (detected, score) :: after
         /\ 0 < score
         /\ Forall (fun item => snd item < score) before
         /\ Forall (fun item => snd item <= score) after.
Proof.
  intros Hnn detected ->.
  destruct (List.filter (fun item => 0 <? snd item) counts) as [|item rest] eqn:E.
  - left. split; [|reflexivity].
    rewrite Forall_forall in Hnn. apply Forall_forall. intros x Hx.
    specialize (Hnn x Hx).
    destruct (0 <? snd x) eqn:Ex; [|apply Z.ltb_ge in Ex; lia].
    exfalso. assert (Hin : In x (List.filter (fun item => 0 <? snd item) counts))
      by (apply filter_In; split; [apply list_elem_of_In, Hx | exact Ex]).
    rewrite E in Hin. destruct Hin.
  - right.
    destruct (max_by_spec snd rest item [] []) as (b & a & Heq & Hb & Ha);
      [constructor | constructor |].
    cbn [app] in Heq. rewrite <- E in Heq.
    destruct (filter_split _ _ _ _ _ Heq) as (b' & a' & Hsplit & Hfb & Hfa).
    remember (max_by snd item rest) as r eqn:Hr. clear Hr.
    assert (Hpos : 0 < snd r).
    { assert (Hin : In r (List.filter (fun item => 0 <? snd item) counts))
        by (rewrite Heq; apply in_elt).
      apply filter_In in Hin as [_ Hin]. apply Z.ltb_lt, Hin. }
    exists b', (snd r), a'. split; [|split; [exact Hpos|split]].
    + rewrite Hsplit. destruct r. reflexivity.
    + apply Forall_forall. intros x Hx. apply list_elem_of_In in Hx.
      destruct (0 <? snd x) eqn:Ex.
      * rewrite Forall_forall in Hb. apply Hb, list_elem_of_In.
        rewrite <- Hfb. apply filter_In. split; assumption.
      * apply Z.ltb_ge in Ex. lia.
    + apply Forall_forall. intros x Hx. apply list_elem_of_In in Hx.
      destruct (0 <? snd x) eqn:Ex.
      * rewrite Forall_forall in Ha. apply Ha, list_elem_of_In.
        rewrite <- Hfa. apply filter_In. split; assumption.
      * apply Z.ltb_ge in Ex. lia.
Qed.

(** X12. The detected sector is "GENERAL" when no phrase of a sector
    other than the soft skills occurs in the lower-cased text; otherwise it
    is the sector, soft skills apart, with the most phrases occurring, the
    first such sector of the taxonomy when several tie.  It is never the
    soft skills. *)
Theorem detected_sector_is_best (text : string) :
  let counts := sector_counts (lower text) in
  _detect_sector text <> "SOFT-SKILLS"
  /\ (Forall (fun item => snd item = 0) counts /\ _detect_sector text = "GENERAL"
      \/ exists before score after,
           counts = before ++ (_detect_sector text, score) :: after
           /\ 0 < score
           /\ Forall (fun item => snd item < score) before
           /\ Forall (fun item => snd item <= score) after).
Proof.
  cbv zeta.
  pose proof (best_of_counts _ (sector_counts_nonnegative (lower text))
                _ (detect_sector_unfolded text)) as Hcases.
  pose proof (sector_counts_keys (lower text)) as Hkeys.
  revert Hcases Hkeys.
  generalize (sector_counts (lower text)) (_detect_sector text).
  intros counts detected Hcases Hkeys.
  split; [|exact Hcases].
  destruct Hcases as [[_ ->]|(b & score & a & Hsplit & _)]; [discriminate|].
  rewrite Hsplit, Forall_app in Hkeys. destruct Hkeys as [_ Hk].
  inversion Hk as [|? ? [_ Hne] _]; subst. exact Hne.
Qed.

Lemma complexity_as_hundredths (skills : skills_map) (experience education : Z) :
  (_calculate_complexity_score skills experience education
   == Qmin (inject_Z (2 * total_skill_count skills + 2 * experience + education)
            / 100) 1)%Q.
Proof.
  unfold _calculate_complexity_score. cbv zeta.
  apply Q.min_compat; [|reflexivity].
  rewrite !inject_Z_plus, !inject_Z_mult. field.
Qed.

(** X13. The complexity score is never above 1; it does not decrease when
    the years or the education level of the requirement grow; and for years
    that are not negative and a level of at least 1 it is above 0. *)
Theorem complexity_score_bounds (skills : skills_map) (experience education : Z) :
  (_calculate_complexity_score skills experience education <= 1)%Q
  /\ (forall more_experience higher_education,
        experience <= more_experience -> education <= higher_education ->
        (_calculate_complexity_score skills experience education
         <= _calculate_complexity_score skills more_experience higher_education)%Q)
  /\ (0 <= experience -> 1 <= education ->
      (0 < _calculate_complexity_score skills experience education)%Q).
Proof.
  pose proof (total_skill_count_nonnegative skills) as Hs.
  split; [apply Q.le_min_r|]. split.
  - intros e' d' He Hd. rewrite !complexity_as_hundredths.
    assert (Hz : 2 * total_skill_count skills + 2 * experience + education
                 <= 2 * total_skill_count skills + 2 * e' + d') by lia.
    rewrite Zle_Qle in Hz. revert Hz.
    generalize (inject_Z (2 * total_skill_count skills + 2 * experience + education)).
    generalize (inject_Z (2 * total_skill_count skills + 2 * e' + d')).
    clear. intros b a Hab. apply Q.min_le_compat_r.
    unfold Qdiv. change (/ 100)%Q with (1 # 100)%Q. lra.
  - intros He Hd. rewrite complexity_as_hundredths.
    assert (Hz : 1 <= 2 * total_skill_count skills + 2 * experience + education) by lia.
    rewrite Zle_Qle in Hz. change (inject_Z 1) with 1%Q in Hz. revert Hz.
    generalize (inject_Z (2 * total_skill_count skills + 2 * experience + education)).
    clear. intros z Hz. apply Q.min_glb_lt; [|reflexivity].
    unfold Qdiv. change (/ 100)%Q with (1 # 100)%Q. lra.
Qed.

Lemma complexity_score_bounds_witness :
  (_calculate_complexity_score sixteen_skills 8 3
   <= _calculate_complexity_score sixteen_skills 10 4)%Q
  /\ (0 < _calculate_complexity_score sixteen_skills 8 3)%Q.
Proof.
  destruct (complexity_score_bounds sixteen_skills 8 3) as (_ & Hmono & Hlo).
  split; [apply Hmono; lia | apply Hlo; lia].
Defined.

(** ** The search for a phrase *)

Lemma rmatch_lit_starts_with {R} (p : string) :
  forall (prev : option ascii) (s : string) (cap : option string)
         (k : Re.cont R) (x : R),
    Re.rmatch (Re.lit p) prev s cap k = Some x -> starts_with p s = true.
Proof.
  induction p as [|c p IH]; intros prev s cap k x H.
  - destruct s; reflexivity.
  - cbn [Re.lit Re.rmatch] in H. destruct s as [|c' s]; [discriminate|].
    unfold Re.exactly in H. cbn [starts_with].
    destruct (Ascii.eqb c c'); [|discriminate].
    exact (IH _ _ _ _ _ H).
Qed.

Lemma bounded_match_starts_with (p : string) (prev : option ascii) (s : string) :
  Re.match_here (Re.cat [Re.Bound; Re.lit p; Re.Bound]) prev s <> None ->
  starts_with p s = true.
Proof.
  unfold Re.match_here, Re.cat. cbn [foldr Re.rmatch].
  destruct (Re.at_boundary prev s); [|intros H; contradiction H; reflexivity].
  destruct (Re.rmatch (Re.lit p) prev s None _) as [x|] eqn:E;
    [|intros H; contradiction H; reflexivity].
  intros _. exact (rmatch_lit_starts_with _ _ _ _ _ _ E).
Qed.

Lemma bounded_search_contains (p : string) (s : string) :
  forall prev,
    Re.search_from (Re.cat [Re.Bound; Re.lit p; Re.Bound]) prev s = true ->
    contains p s = true.
Proof.
  induction s as [|c s IH]; intros prev H.
  - cbn [Re.search_from] in H.
    destruct (Re.match_here _ prev "") eqn:E; [|discriminate].
    cbn [contains]. rewrite (bounded_match_starts_with p prev "");
      [reflexivity | rewrite E; discriminate].
  - cbn [Re.search_from] in H. cbn [contains].
    destruct (Re.match_here _ prev (String c s)) eqn:E.
    + rewrite (bounded_match_starts_with p prev (String c s));
        [reflexivity | rewrite E; discriminate].
    + rewrite (IH _ H). apply orb_true_r.
Qed.

Lemma skill_found_contains (text_lower skill : string) :
  skill_found text_lower skill = contains skill text_lower.
Proof.
  unfold skill_found. destruct (contains skill text_lower) eqn:E; [reflexivity|].
  cbn [orb].
  destruct (Re.search _ text_lower) eqn:S; [|reflexivity].
  unfold Re.search in S. apply bounded_search_contains in S. congruence.
Qed.

(** X14. The search for a phrase is a plain substring search: the match
    between word boundaries that the code falls back on never finds a phrase
    that is not a substring of the text.  So the number of phrases of a
    sector that the sector detection counts is the number of phrases that
    the skill extraction keeps. *)
Theorem skill_search_is_substring_search (text_lower : string) :
  (forall skill, skill_found text_lower skill = contains skill text_lower)
  /\ (forall skills,
        occurrences text_lower skills
        = Z.of_nat (length (filter (fun skill => skill_found text_lower skill = true)
                                   skills))).
Proof.
  split; [intros skill; apply skill_found_contains|].
  intros skills. unfold occurrences. f_equal. f_equal.
  induction skills as [|s skills IH]; [reflexivity|].
  rewrite !filter_cons, IH.
  destruct (decide (contains s text_lower = true)) as [H|H];
    destruct (decide (skill_found text_lower s = true)) as [H'|H'];
    try reflexivity; rewrite skill_found_contains in H'; contradiction.
Qed.

(** ** The strengths of a candidate *)

Lemma Qgt_bool_iff (a b : Q) : Qgt_bool a b = true <-> (b < a)%Q.
Proof.
  unfold Qgt_bool. rewrite negb_true_iff. split.
  - intros H. apply Qnot_le_lt. intros Hle. apply Qle_bool_iff in Hle. congruence.
  - intros H. destruct (Qle_bool a b) eqn:E; [|reflexivity].
    apply Qle_bool_iff in E. exfalso. apply (Qlt_not_le _ _ H E).
Qed.

Lemma Qlt_bool_iff (a b : Q) : Qlt_bool a b = true <-> (a < b)%Q.
Proof. apply Qgt_bool_iff. Qed.

Lemma strengths_listed (result : RankingResult) :
  (In "Strong skill match" (_identify_strengths result)
   <-> Qgt_bool (skill_score result) 0.7 = true)
  /\ (In "Excellent experience level" (_identify_strengths result)
      <-> Qgt_bool (experience_score result) 0.8 = true)
  /\ (In "Strong educational background" (_identify_strengths result)
      <-> Qgt_bool (education_score result) 0.8 = true)
  /\ (In "High content relevance" (_identify_strengths result)
      <-> Qgt_bool (text_similarity result) 0.6 = true)
  /\ (In "Exceptional overall match" (_identify_strengths result)
      <-> Qgt_bool (match_percentage result) 85 = true).
Proof.
  unfold _identify_strengths.
  destruct (Qgt_bool (skill_score result) 0.7),
           (Qgt_bool (experience_score result) 0.8),
           (Qgt_bool (education_score result) 0.8),
           (Qgt_bool (text_similarity result) 0.6),
           (Qgt_bool (match_percentage result) 85);
    cbn [app In];
    (split; [|split; [|split; [|split]]]);
    (split; [intros H; first [reflexivity | exfalso; intuition discriminate]
            | intros H; first [discriminate H | intuition auto]]).
Qed.

Lemma ratio_above (c : Q) (years req : Z) :
  0 < req ->
  (c < inject_Z years / inject_Z req)%Q <-> (c * inject_Z req < inject_Z years)%Q.
Proof.
  intros Hr. pose proof (inject_Z_pos _ Hr) as Hq. split; intros H.
  - apply Qnot_le_lt. intros Hle.
    apply (Qle_shift_div_r _ _ _ Hq) in Hle.
    exact (Qlt_not_le _ _ H Hle).
  - apply Qlt_shift_div_l; assumption.
Qed.

Lemma ratio_below (c : Q) (years req : Z) :
  0 < req ->
  (inject_Z years / inject_Z req < c)%Q <-> (inject_Z years < c * inject_Z req)%Q.
Proof.
  intros Hr. pose proof (inject_Z_pos _ Hr) as Hq. split; intros H.
  - apply Qnot_le_lt. intros Hle.
    apply (Qle_shift_div_l _ _ _ Hq) in Hle.
    exact (Qlt_not_le _ _ H Hle).
  - apply Qlt_shift_div_r; assumption.
Qed.

Lemma exp_score_excellent (required_years candidate_years : Z) :
  (0.8 < exp_score required_years candidate_years)%Q
  <-> if required_years >? 0
      then 4 * required_years < 5 * candidate_years
           /\ candidate_years < 3 * required_years
      else 4 < candidate_years.
Proof.
  unfold exp_score. destruct (required_years >? 0) eqn:Hr.
  - apply Z.gtb_lt in Hr.
    rewrite (Zlt_Qlt (4 * required_years)), (Zlt_Qlt candidate_years).
    rewrite !inject_Z_mult.
    change (inject_Z 4) with 4%Q. change (inject_Z 5) with 5%Q.
    change (inject_Z 3) with 3%Q.
    pose proof (ratio_above 0.8 candidate_years required_years Hr) as Ha.
    pose proof (ratio_above 1 candidate_years required_years Hr) as H1.
    pose proof (ratio_below 3 candidate_years required_years Hr) as Hb.
    pose proof (inject_Z_pos _ Hr) as Hq.
    revert Ha H1 Hb Hq.
    generalize (inject_Z candidate_years / inject_Z required_years)%Q.
    generalize (inject_Z candidate_years). generalize (inject_Z required_years).
    clear. intros r y ratio Ha H1 Hb Hq.
    destruct (Qle_bool ratio 1) eqn:E.
    + apply Qle_bool_iff in E. rewrite Ha. split; [|intros [H _]; lra].
      intros H. split; [lra|].
      destruct (Qlt_le_dec y (3 * r)) as [Hlt|Hge]; [exact Hlt|].
      exfalso. assert (Hone : (1 < ratio)%Q) by (apply H1; lra).
      exact (Qlt_not_le _ _ Hone E).
    + assert (Hgt : (1 < ratio)%Q).
      { apply Qnot_le_lt. intros H. apply Qle_bool_iff in H. congruence. }
      clear E. rewrite <- Hb.
      destruct (Q.min_spec ((ratio - 1) * 0.1) 0.3) as [[Hlt ->]|[Hle ->]].
      * split; [intros H; split; [apply H1 in Hgt; lra | lra] | intros [_ H]; lra].
      * split; [intros H; exfalso; lra | intros [_ H]; exfalso; lra].
  - rewrite (Zlt_Qlt 4). change (inject_Z 4) with 4%Q.
    generalize (inject_Z candidate_years). clear. intros y.
    unfold Qdiv. change (/ 5)%Q with (1 # 5)%Q.
    destruct (Q.min_spec (y * (1 # 5)) 1) as [[Hlt ->]|[Hle ->]];
      split; intros H; lra.
Qed.

Lemma edu_score_strong (required_level candidate_level : Z) :
  (0.8 < edu_score required_level candidate_level)%Q
  <-> 4 * Z.max required_level 3 < 5 * candidate_level.
Proof.
  unfold edu_score.
  assert (Hr : 0 < Z.max required_level 3) by lia.
  rewrite (Zlt_Qlt (4 * _)), !inject_Z_mult.
  change (inject_Z 4) with 4%Q. change (inject_Z 5) with 5%Q.
  pose proof (ratio_above 0.8 candidate_level _ Hr) as Ha. revert Ha.
  generalize (inject_Z candidate_level / inject_Z (Z.max required_level 3))%Q.
  generalize (inject_Z candidate_level).
  generalize (inject_Z (Z.max required_level 3)).
  clear. intros r y ratio Ha.
  destruct (Q.min_spec ratio 1) as [[Hlt ->]|[Hle ->]].
  - rewrite Ha. split; intros H; lra.
  - split; [intros _ | intros _; lra].
    assert (H : (0.8 < ratio)%Q) by lra. apply Ha in H. lra.
Qed.

(** X15. What the strengths of a ranked candidate say about the years and
    the education.  Every candidate is scored, and ["Excellent experience
    level"] is among the strengths exactly when the candidate has more than
    four fifths and less than three times the required years (more than 4
    years when none are required): a candidate with three times the required
    years or more is not credited.  ["Strong educational background"] is
    among them exactly when five times the candidate's level exceeds four
    times the required level, counted as 3 when lower. *)
Theorem strengths_of_a_scored_candidate (job_analysis : JobAnalysis)
    (weights : Weights) (text_similarities : list Q) (i : nat) (resume : Parsed) :
  exists result,
    score_resume job_analysis weights text_similarities i resume = Returns result
    /\ (In "Excellent experience level" (_identify_strengths result)
        <-> if experience_required job_analysis >? 0
            then 4 * experience_required job_analysis < 5 * p_experience_years resume
                 /\ p_experience_years resume < 3 * experience_required job_analysis
            else 4 < p_experience_years resume)
    /\ (In "Strong educational background" (_identify_strengths result)
        <-> 4 * Z.max (education_required job_analysis) 3
            < 5 * p_education_score resume).
Proof.
  destruct (score_resume_fields job_analysis weights text_similarities i resume)
    as (skill & breakdown & _ & Hfields).
  eexists. split; [exact Hfields|].
  match goal with
  | |- context [_identify_strengths ?r] =>
      destruct (strengths_listed r) as (_ & Hexp & Hedu & _)
  end.
  rewrite Hexp, Hedu. cbn [experience_score education_score].
  rewrite !Qgt_bool_iff. split.
  - apply exp_score_excellent.
  - apply edu_score_strong.
Qed.

(** ** Tallies *)

Lemma dict_get_set {V} (k k' : string) (v : V) (d : dict V) :
  dict_get k' (dict_set k v d) = if String.eqb k' k then Some v else dict_get k' d.
Proof.
  induction d as [|[k0 v0] d IH]; cbn [dict_set dict_get].
  - destruct (String.eqb k' k); reflexivity.
  - destruct (String.eqb k k0) eqn:E; cbn [dict_get].
    + apply String.eqb_eq in E. subst k0.
      destruct (String.eqb k' k); reflexivity.
    + rewrite IH. destruct (String.eqb k' k) eqn:E'; [|reflexivity].
      apply String.eqb_eq in E'. subst k'. rewrite E. reflexivity.
Qed.

Lemma dict_get_None {V} (k : string) (d : dict V) :
  dict_get k d = None <-> ~ In k (map fst d).
Proof.
  induction d as [|[k0 v0] d IH]; cbn [dict_get map fst In]; [tauto|].
  destruct (String.eqb k k0) eqn:E.
  - apply String.eqb_eq in E. subst. split; [discriminate | intros H; tauto].
  - apply String.eqb_neq in E. rewrite IH. split; [intros H [H'|H']; auto | tauto].
Qed.

Lemma dict_set_keys {V} (k : string) (v : V) (d : dict V) :
  map fst (dict_set k v d)
  = match dict_get k d with
    | Some _ => map fst d
    | None => map fst d ++ [k]
    end.
Proof.
  induction d as [|[k0 v0] d IH]; cbn [dict_set dict_get map fst app]; [reflexivity|].
  destruct (String.eqb k k0) eqn:E; cbn [map fst].
  - apply String.eqb_eq in E. subst. reflexivity.
  - rewrite IH. destruct (dict_get k d); reflexivity.
Qed.

Lemma dict_set_NoDup {V} (k : string) (v : V) (d : dict V) :
  NoDup (map fst d) -> NoDup (map fst (dict_set k v d)).
Proof.
  intros H. rewrite dict_set_keys. destruct (dict_get k d) eqn:E; [exact H|].
  apply NoDup_app. split; [exact H|]. split; [|apply NoDup_singleton].
  intros x Hx Hk. apply list_elem_of_singleton in Hk. subst x.
  apply dict_get_None in E. apply E, list_elem_of_In, Hx.
Qed.

Lemma times_app key keys more :
  times key (keys ++ more) = times key keys + times key more.
Proof. unfold times. rewrite filter_app, length_app. lia. Qed.

Lemma times_one key k : times key [k] = if String.eqb key k then 1 else 0.
Proof.
  unfold times. rewrite filter_cons, filter_nil.
  destruct (decide (k = key)) as [->|H].
  - rewrite String.eqb_refl. reflexivity.
  - destruct (String.eqb key k) eqn:E; [|reflexivity].
    apply String.eqb_eq in E. congruence.
Qed.

Lemma times_nonnegative key keys : 0 <= times key keys.
Proof. unfold times. lia. Qed.

Lemma times_positive key keys : 0 < times key keys <-> In key keys.
Proof.
  unfold times. induction keys as [|k keys IH].
  - cbn. split; [lia | tauto].
  - rewrite filter_cons. destruct (decide (k = key)) as [->|H]; cbn [length In].
    + split; [intros _; left; reflexivity | intros _; lia].
    + rewrite IH. split; [tauto | intros [H'|H']; [contradiction | exact H']].
Qed.

Lemma tally_of_nil : tally_of [] [].
Proof. split; [constructor | intros key; reflexivity]. Qed.

Lemma tally_of_count_one keys counts k :
  tally_of keys counts -> tally_of (keys ++ [k]) (count_one counts k).
Proof.
  intros [Hd Hget]. unfold count_one. split; [apply dict_set_NoDup, Hd|].
  intros key. rewrite dict_get_set, times_app, times_one.
  pose proof (times_nonnegative key keys) as Hn.
  destruct (String.eqb key k) eqn:E.
  - apply String.eqb_eq in E. subst k. rewrite Hget.
    destruct (times key keys =? 0) eqn:Z0.
    + apply Z.eqb_eq in Z0. rewrite Z0. reflexivity.
    + destruct (times key keys + 1 =? 0) eqn:Z1; [apply Z.eqb_eq in Z1; lia|].
      reflexivity.
  - rewrite Z.add_0_r. apply Hget.
Qed.

Lemma tally_of_fold more :
  forall keys counts,
    tally_of keys counts -> tally_of (keys ++ more) (fold_left count_one more counts).
Proof.
  induction more as [|k more IH]; intros keys counts H; cbn [fold_left].
  - rewrite app_nil_r. exact H.
  - replace (keys ++ k :: more) with ((keys ++ [k]) ++ more)
      by (rewrite <- app_assoc; reflexivity).
    apply IH, tally_of_count_one, H.
Qed.

Lemma Counter_tally keys : tally_of keys (Counter keys).
Proof. exact (tally_of_fold keys [] [] tally_of_nil). Qed.

Lemma sum_count_one counts k :
  foldr Z.add 0 (dict_values (count_one counts k))
  = foldr Z.add 0 (dict_values counts) + 1.
Proof.
  unfold count_one, dict_values.
  induction counts as [|[k0 v0] counts IH]; cbn [dict_get dict_set map snd foldr].
  - cbn. lia.
  - destruct (String.eqb k k0) eqn:E; cbn [map snd foldr]; [cbn; lia|].
    rewrite IH. lia.
Qed.

Lemma sum_fold_count_one more :
  forall counts,
    foldr Z.add 0 (dict_values (fold_left count_one more counts))
    = foldr Z.add 0 (dict_values counts) + Z.of_nat (length more).
Proof.
  induction more as [|k more IH]; intros counts; cbn [fold_left length].
  - lia.
  - rewrite IH, sum_count_one. lia.
Qed.

Lemma tally_of_keys keys counts key :
  tally_of keys counts -> (In key (map fst counts) <-> In key keys).
Proof.
  intros [_ Hget]. rewrite <- (times_positive key keys).
  pose proof (dict_get_None key counts) as Hn. rewrite Hget in Hn.
  pose proof (times_nonnegative key keys).
  destruct (times key keys =? 0) eqn:E.
  - apply Z.eqb_eq in E. split; [intros H'; exfalso; apply Hn; auto | lia].
  - apply Z.eqb_neq in E. split; [lia|]. intros _.
    destruct (in_dec string_dec key (map fst counts)) as [Hin|Hout]; [exact Hin|].
    apply Hn in Hout. discriminate.
Qed.

Lemma tally_of_size keys counts :
  tally_of keys counts ->
  size (list_to_set keys : gset string) = length counts.
Proof.
  intros H. pose proof H as [Hd _].
  rewrite <- (length_map fst counts).
  rewrite <- (size_list_to_set (C := gset string) (map fst counts)) by exact Hd.
  f_equal. apply set_eq. intros key.
  rewrite !elem_of_list_to_set, !list_elem_of_In.
  symmetry. apply tally_of_keys, H.
Qed.

(** ** The summary of a ranking *)

Lemma Qmin_either (a b : Q) : Qmin a b = a \/ Qmin a b = b.
Proof.
  unfold Qmin, GenericMinMax.gmin. destruct (a ?= b)%Q; auto.
Qed.

Lemma Qmax_either (a b : Q) : Qmax a b = a \/ Qmax a b = b.
Proof.
  unfold Qmax, GenericMinMax.gmax. destruct (a ?= b)%Q; auto.
Qed.

Lemma np_min_spec (rest : list Q) :
  forall first,
    In (np_min first rest) (first :: rest)
    /\ Forall (fun x => (np_min first rest <= x)%Q) (first :: rest).
Proof.
  unfold np_min. induction rest as [|x rest IH]; intros first; cbn [fold_left].
  - split; [left; reflexivity | repeat constructor; apply Qle_refl].
  - destruct (IH (Qmin first x)) as [Hin Hle]. split.
    + destruct Hin as [Hin|Hin]; [|right; right; exact Hin].
      rewrite <- Hin.
      destruct (Qmin_either first x) as [E|E]; rewrite E;
        [left | right; left]; reflexivity.
    + inversion Hle as [|? ? Hm Hrest]; subst.
      constructor; [|constructor; [|exact Hrest]].
      * eapply Qle_trans; [exact Hm | apply Q.le_min_l].
      * eapply Qle_trans; [exact Hm | apply Q.le_min_r].
Qed.

Lemma np_max_spec (rest : list Q) :
  forall first,
    In (np_max first rest) (first :: rest)
    /\ Forall (fun x => (x <= np_max first rest)%Q) (first :: rest).
Proof.
  unfold np_max. induction rest as [|x rest IH]; intros first; cbn [fold_left].
  - split; [left; reflexivity | repeat constructor; apply Qle_refl].
  - destruct (IH (Qmax first x)) as [Hin Hle]. split.
    + destruct Hin as [Hin|Hin]; [|right; right; exact Hin].
      rewrite <- Hin.
      destruct (Qmax_either first x) as [E|E]; rewrite E;
        [left | right; left]; reflexivity.
    + inversion Hle as [|? ? Hm Hrest]; subst.
      constructor; [|constructor; [|exact Hrest]].
      * eapply Qle_trans; [apply Q.le_max_l | exact Hm].
      * eapply Qle_trans; [apply Q.le_max_r | exact Hm].
Qed.

(** X16. The summary of a ranking.  An empty ranking, and no other, gets the
    empty summary.  Otherwise the summary counts every result; its lowest
    and highest scores are scores of results and bracket every score; the
    sector distribution lists each sector of the ranking once with the
    number of its results, the counts adding up to the total; and the number
    of sectors represented is the number of entries of the distribution. *)
Theorem summary_statistics_consistent (np_mean np_median np_std : list Q -> Q)
    (np_percentile : list Q -> Q -> Q) (results : list RankingResult) :
  match get_summary_statistics np_mean np_median np_std np_percentile results with
  | None => results = []
  | Some stats =>
      results <> []
      /\ total_resumes stats = Z.of_nat (length results)
      /\ Forall (fun r => (min_score stats <= combined_score r)%Q
                          /\ (combined_score r <= max_score stats)%Q) results
      /\ (exists lowest highest,
            In lowest results /\ In highest results
            /\ min_score stats = combined_score lowest
            /\ max_score stats = combined_score highest)
      /\ tally_of (map r_sector results) (sector_distribution stats)
      /\ foldr Z.add 0 (dict_values (sector_distribution stats))
         = total_resumes stats
      /\ sectors_represented stats = Z.of_nat (length (sector_distribution stats))
  end.
Proof.
  destruct results as [|first rest]; [reflexivity|].
  unfold get_summary_statistics.
  cbn [total_resumes min_score max_score sector_distribution sectors_represented].
  remember (first :: rest) as results eqn:E.
  destruct (np_min_spec (map combined_score rest) (combined_score first))
    as [Hmin_in Hmin_le].
  destruct (np_max_spec (map combined_score rest) (combined_score first))
    as [Hmax_in Hmax_le].
  change (combined_score first :: map combined_score rest)
    with (map combined_score (first :: rest)) in *.
  rewrite <- E in *.
  split; [subst; discriminate|]. split; [reflexivity|]. split; [|split].
  - rewrite Forall_map in Hmin_le, Hmax_le.
    rewrite Forall_forall in Hmin_le, Hmax_le. apply Forall_forall.
    intros r Hr. split; [apply Hmin_le, Hr | apply Hmax_le, Hr].
  - apply in_map_iff in Hmin_in as (lowest & El & Hl).
    apply in_map_iff in Hmax_in as (highest & Eh & Hh).
    exists lowest, highest. auto.
  - split; [apply Counter_tally|]. split.
    + unfold Counter. rewrite sum_fold_count_one, length_map. reflexivity.
    + f_equal. apply tally_of_size, Counter_tally.
Qed.

(** ** The candidates shown *)

Lemma imap_ranks round (results : list RankingResult) :
  forall first : nat,
    map c_rank (imap (fun i result => candidate round (Z.of_nat (first + i) + 1) result)
                     results)
    = map Z.of_nat (seq (S first) (length results)).
Proof.
  induction results as [|r results IH]; intros first; [reflexivity|].
  rewrite imap_cons. cbn [map length seq c_rank candidate].
  f_equal; [lia|].
  rewrite <- (IH (S first)). f_equal. apply imap_ext. intros i x _.
  cbn. f_equal. lia.
Qed.

Lemma imap_Forall2 {A B} (f : nat -> A -> B) (P : B -> A -> Prop) (l : list A) :
  (forall i x, P (f i x) x) -> Forall2 P (imap f l) l.
Proof.
  revert f. induction l as [|x l IH]; intros f H; [constructor|].
  rewrite imap_cons. constructor; [apply H|]. apply IH. intros i y. apply H.
Qed.

Lemma all_skills_flat (entries : skills_map) :
  forall all_skills,
    fold_left (fun all_skills (entry : string * list string) =>
                 all_skills ++ snd entry) entries all_skills
    = all_skills ++ flat_map snd entries.
Proof.
  induction entries as [|e entries IH]; intros all_skills; cbn [fold_left flat_map].
  - rewrite app_nil_r. reflexivity.
  - rewrite IH, <- app_assoc. reflexivity.
Qed.

Lemma slice_to_length {A} (n : Z) (l : list A) :
  length (slice_to n l)
  = if n <? 0 then (length l - Z.to_nat (- n))%nat
    else Nat.min (Z.to_nat n) (length l).
Proof.
  unfold slice_to. destruct (n <? 0) eqn:E; rewrite length_firstn; [|reflexivity].
  apply Z.ltb_lt in E. lia.
Qed.

Lemma slice_to_prefix {A} (n : Z) (l : list A) :
  slice_to n l = firstn (length (slice_to n l)) l.
Proof.
  unfold slice_to.
  destruct (n <? 0); rewrite length_firstn, <- firstn_firstn, firstn_all;
    reflexivity.
Qed.

(** X17. The candidates shown are the first of the ranking, in its order,
    numbered from 1: as many as asked for when the ranking has that many,
    all but the last ones when the number asked for is negative.  Each is
    shown with the first ten of the phrases found, in the order of the
    sectors. *)
Theorem top_candidates_numbered (round : Q -> Z -> Q)
    (results : list RankingResult) (top_n : Z) :
  let shown := get_top_candidates round results top_n in
  length shown
  = (if top_n <? 0 then (length results - Z.to_nat (- top_n))%nat
     else Nat.min (Z.to_nat top_n) (length results))
  /\ map c_rank shown = map Z.of_nat (seq 1 (length shown))
  /\ Forall2 (fun shown_as result =>
                c_filename shown_as = r_filename result
                /\ c_top_skills shown_as
                   = firstn 10 (flat_map snd (skills_found result))
                /\ c_strengths shown_as = _identify_strengths result)
             shown (firstn (length shown) results).
Proof.
  intros shown. subst shown. unfold get_top_candidates.
  rewrite length_imap. split; [apply slice_to_length|]. split.
  - exact (imap_ranks round (slice_to top_n results) 0).
  - rewrite <- slice_to_prefix. apply imap_Forall2. intros i r.
    cbn [candidate c_filename c_top_skills c_strengths].
    rewrite all_skills_flat. auto.
Qed.

(** ** The distributions of the dashboard *)

Lemma count_where_nil test : count_where test [] = 0.
Proof. reflexivity. Qed.

Lemma count_where_cons test r results :
  count_where test (r :: results)
  = (if test r then 1 else 0) + count_where test results.
Proof.
  unfold count_where. cbn [List.filter]. destruct (test r); cbn [length]; lia.
Qed.

Lemma score_range_of (m : Q) :
  let in_90 := Qle_bool 90 m in
  let in_80 := Qle_bool 80 m && Qlt_bool m 90 in
  let in_70 := Qle_bool 70 m && Qlt_bool m 80 in
  let in_60 := Qle_bool 60 m && Qlt_bool m 70 in
  let below := Qlt_bool m 60 in
  let one (b : bool) := if b then 1 else 0 in
  one in_90 + one in_80 + one in_70 + one in_60 + one below = 1
  /\ one (Qle_bool 70 m) = one in_90 + one in_80 + one in_70
  /\ one in_90 <= one (Qle_bool 85 m) <= one in_90 + one in_80.
Proof.
  cbv zeta. unfold Qlt_bool.
  destruct (Qle_bool 90 m) eqn:E90, (Qle_bool 85 m) eqn:E85,
           (Qle_bool 80 m) eqn:E80, (Qle_bool 70 m) eqn:E70,
           (Qle_bool 60 m) eqn:E60;
    cbn [andb negb]; try (split; [|split]; lia);
    exfalso;
    repeat match goal with
           | H : Qle_bool _ _ = true |- _ => apply Qle_bool_iff in H
           | H : Qle_bool ?a ?b = false |- _ =>
               assert (b < a)%Q
                 by (apply Qnot_le_lt; intros Hle; apply Qle_bool_iff in Hle;
                     congruence);
               clear H
           end; lra.
Qed.

(** X18. The five score ranges of the dashboard share out the ranking: every
    result is counted in exactly one of them, whatever its match percentage,
    so the five counts add up to the number of results.  The qualified
    candidates are those of the three ranges from 70 up, and the highly
    qualified ones are at least those of the top range and at most those of
    the two ranges from 80 up. *)
Theorem score_ranges_share_out_the_ranking (results : list RankingResult) :
  exists top eighties seventies sixties below,
    score_ranges results
    = [("90-100%", top); ("80-89%", eighties); ("70-79%", seventies);
       ("60-69%", sixties); ("Below 60%", below)]
    /\ 0 <= top /\ 0 <= eighties /\ 0 <= seventies /\ 0 <= sixties /\ 0 <= below
    /\ top + eighties + seventies + sixties + below = total_candidates results
    /\ qualified_candidates results = top + eighties + seventies
    /\ top <= highly_qualified results <= top + eighties.
Proof.
  unfold score_ranges, total_candidates, qualified_candidates, highly_qualified.
  do 5 eexists. split; [reflexivity|].
  repeat (split; [unfold count_where; lia|]).
  induction results as [|r results IH].
  - rewrite !count_where_nil. cbn [length]. lia.
  - rewrite !count_where_cons.
    pose proof (score_range_of (match_percentage r)) as H. cbv zeta in H.
    cbn [length]. lia.
Qed.

From Stdlib Require DecimalPos DecimalZ.

(** ** The labels of the experience ranges *)

Lemma digits_without_dash (d : Decimal.uint) :
  forall c, In c (list_ascii_of_string (NilEmpty.string_of_uint d)) -> c <> "-"%char.
Proof.
  induction d; cbn [NilEmpty.string_of_uint list_ascii_of_string In];
    intros c' H; try contradiction;
    (destruct H as [<-|H]; [discriminate | exact (IHd c' H)]).
Qed.

Lemma number_without_dash (d : Decimal.uint) :
  NilZero.string_of_uint d <> ""
  /\ forall c, In c (list_ascii_of_string (NilZero.string_of_uint d)) -> c <> "-"%char.
Proof.
  destruct d;
    try (split; [discriminate | exact (digits_without_dash _)]).
  split; [discriminate|]. cbn. intros c [<-|[]]. discriminate.
Qed.

Lemma str_of_int_inj (a b : Z) : str_of_int a = str_of_int b -> a = b.
Proof.
  unfold str_of_int. intros H. apply DecimalZ.to_int_inj.
  assert (Hnn : forall z, Z.to_int z <> Decimal.Pos Decimal.Nil
                          /\ Z.to_int z <> Decimal.Neg Decimal.Nil).
  { intros [|p|p]; cbn [Z.to_int]; split; try discriminate;
      intros E; injection E as E; exact (DecimalPos.Unsigned.to_uint_nonnil p E). }
  destruct (Hnn a) as [Ha1 Ha2]. destruct (Hnn b) as [Hb1 Hb2].
  pose proof (NilZero.isi _ Ha1 Ha2) as Ia.
  pose proof (NilZero.isi _ Hb1 Hb2) as Ib.
  rewrite H, Ib in Ia. injection Ia as Ia. symmetry. exact Ia.
Qed.

Lemma dash_split (a : string) :
  forall a' x x' : string,
    (forall c, In c (list_ascii_of_string a) -> c <> "-"%char) ->
    (forall c, In c (list_ascii_of_string a') -> c <> "-"%char) ->
    (a ++ String "-" x = a' ++ String "-" x')%string -> a = a'.
Proof.
  induction a as [|c a IH]; intros a' x x' Ha Ha' H.
  - destruct a' as [|c' a']; [reflexivity|].
    cbn in H. injection H as Hc _. exfalso.
    apply (Ha' c'); [left; reflexivity | symmetry; exact Hc].
  - destruct a' as [|c' a'].
    + cbn in H. injection H as Hc _. exfalso.
      apply (Ha c); [left; reflexivity | exact Hc].
    + cbn in H. injection H as -> H. f_equal.
      apply (IH a' x x'); [| | exact H].
      * intros d Hd. apply Ha. right. exact Hd.
      * intros d Hd. apply Ha'. right. exact Hd.
Qed.

Lemma str_of_int_shape (z : Z) :
  (0 <= z
   /\ str_of_int z <> ""
   /\ forall c, In c (list_ascii_of_string (str_of_int z)) -> c <> "-"%char)
  \/ (z < 0
      /\ exists digits,
           str_of_int z = String "-" digits
           /\ forall c, In c (list_ascii_of_string digits) -> c <> "-"%char).
Proof.
  unfold str_of_int. destruct z as [|p|p]; cbn [Z.to_int NilZero.string_of_int].
  - left. split; [lia|]. apply (number_without_dash (Decimal.D0 Decimal.Nil)).
  - left. split; [lia|]. apply number_without_dash.
  - right. split; [lia|]. eexists. split; [reflexivity|].
    apply number_without_dash.
Qed.

Lemma label_low (a b : Z) (x x' : string) :
  (str_of_int a ++ String "-" x = str_of_int b ++ String "-" x')%string -> a = b.
Proof.
  intros H.
  destruct (str_of_int_shape a) as [(_ & Hne & Ha)|(_ & da & Ea & Ha)],
           (str_of_int_shape b) as [(_ & Hne' & Hb)|(_ & db & Eb & Hb)].
  - apply str_of_int_inj. exact (dash_split _ _ _ _ Ha Hb H).
  - exfalso. rewrite Eb in H. destruct (str_of_int a) as [|c s]; [contradiction|].
    cbn in H. injection H as Hc _.
    apply (Ha c); [left; reflexivity | exact Hc].
  - exfalso. rewrite Ea in H. destruct (str_of_int b) as [|c s]; [contradiction|].
    cbn in H. injection H as Hc _.
    apply (Hb c); [left; reflexivity | symmetry; exact Hc].
  - apply str_of_int_inj. rewrite Ea, Eb in *. cbn in H. injection H as H.
    f_equal. exact (dash_split _ _ _ _ Ha Hb H).
Qed.

Lemma exp_range_same (years years' : Z) :
  exp_range years = exp_range years' <-> years / 5 = years' / 5.
Proof.
  unfold exp_range. split; [|intros ->; reflexivity].
  intros H. apply label_low in H. lia.
Qed.

Lemma exp_distribution_Counter (results : list RankingResult) :
  exp_distribution results
  = Counter (map (fun r => exp_range (experience_years r)) results).
Proof.
  unfold exp_distribution, Counter. generalize (@nil (string * Z)).
  induction results as [|r results IH]; intros counts; [reflexivity|].
  cbn [fold_left map]. apply IH.
Qed.

(** X19. The experience distribution of the dashboard.  The label of a
    candidate names the five years, from a multiple of 5 on, that hold the
    candidate's years, also for negative years; two candidates get the same
    label exactly when their years are in the same five years.  The
    distribution lists each label of the ranking once, with the number of
    results that carry it, and the counts add up to the number of
    results. *)
Theorem experience_distribution_by_five_years (results : list RankingResult) :
  (forall years,
     exists low,
       exp_range years
       = (str_of_int low ++ "-" ++ str_of_int (low + 4) ++ " years")%string
       /\ low mod 5 = 0 /\ low <= years <= low + 4)
  /\ (forall years years',
        exp_range years = exp_range years' <-> years / 5 = years' / 5)
  /\ tally_of (map (fun r => exp_range (experience_years r)) results)
              (exp_distribution results)
  /\ foldr Z.add 0 (dict_values (exp_distribution results))
     = total_candidates results.
Proof.
  split; [|split; [exact exp_range_same|]].
  - intros years. exists (years / 5 * 5). split; [reflexivity|].
    split; [apply Z.mod_mul; lia|].
    pose proof (Z.div_mod years 5 ltac:(lia)).
    pose proof (Z.mod_pos_bound years 5 ltac:(lia)). lia.
  - rewrite exp_distribution_Counter. split; [apply Counter_tally|].
    unfold Counter, total_candidates.
    rewrite sum_fold_count_one, length_map. reflexivity.
Qed.

(** ** The most common skills *)

Lemma skill_frequency_Counter (results : list RankingResult) :
  skill_frequency results = Counter (listed_phrases results).
Proof.
  unfold skill_frequency, Counter, listed_phrases. generalize (@nil (string * Z)).
  induction results as [|r results IH]; intros counts; [reflexivity|].
  cbn [fold_left flat_map]. rewrite IH, fold_left_app. f_equal.
  generalize (skills_found r). clear. intros entries. revert counts.
  induction entries as [|e entries IH]; intros counts; [reflexivity|].
  cbn [fold_left flat_map]. rewrite IH, fold_left_app. reflexivity.
Qed.

Lemma descending_counts (l : list (string * Z)) :
  descending_by (fun item => inject_Z (snd item)) l ->
  StronglySorted (fun a b : string * Z => snd b <= snd a) l.
Proof.
  unfold descending_by. induction 1 as [|x l Hl IH Hx]; constructor; [exact IH|].
  eapply Forall_impl; [exact Hx|]. cbv beta. intros y Hy.
  rewrite Zle_Qle. exact Hy.
Qed.

(** X20. The most common skills of the dashboard.  The frequency of a phrase
    is the number of times it is found, over the candidates and the sectors
    it is listed under.  The phrases shown are at most 15, taken from the
    head of the phrases ordered by descending frequency: no phrase left out
    is more frequent than a phrase shown, and phrases of equal frequency
    keep the order in which they were first found. *)
Theorem most_common_skills_by_frequency (results : list RankingResult) :
  tally_of (listed_phrases results) (skill_frequency results)
  /\ exists left_out,
       Permutation (top_skills results ++ left_out) (skill_frequency results)
       /\ StronglySorted (fun a b : string * Z => snd b <= snd a)
                         (top_skills results ++ left_out)
       /\ (forall frequency,
             List.filter (fun item => snd item =? frequency)
                         (top_skills results ++ left_out)
             = List.filter (fun item => snd item =? frequency)
                           (skill_frequency results))
       /\ (length (top_skills results) <= 15)%nat
       /\ (left_out = [] \/ length (top_skills results) = 15%nat).
Proof.
  split; [rewrite skill_frequency_Counter; apply Counter_tally|].
  unfold top_skills.
  set (key := fun item : string * Z => inject_Z (snd item)).
  set (ordered := sorted_desc key (skill_frequency results)).
  exists (skipn 15 ordered). rewrite firstn_skipn.
  split; [apply sorted_desc_permutation|].
  split; [apply descending_counts, sorted_desc_sorted|]. split; [|split].
  - intros frequency.
    pose proof (sorted_desc_keyed key (inject_Z frequency)
                  (skill_frequency results)) as H.
    unfold keyed in H. fold ordered in H.
    assert (Hsame : forall l : list (string * Z),
              List.filter (fun item => Qeq_bool (key item) (inject_Z frequency)) l
              = List.filter (fun item => snd item =? frequency) l).
    { intros l. apply List.filter_ext. intros item. unfold key.
      destruct (snd item =? frequency) eqn:E.
      - apply Z.eqb_eq in E. rewrite E. apply Qeq_bool_iff. reflexivity.
      - apply Z.eqb_neq in E.
        destruct (Qeq_bool (inject_Z (snd item)) (inject_Z frequency)) eqn:Eq;
          [|reflexivity].
        apply Qeq_bool_iff in Eq. apply (proj1 (inject_Z_injective _ _)) in Eq.
        contradiction. }
    rewrite <- !Hsame. exact H.
  - rewrite length_firstn. lia.
  - rewrite length_firstn.
    destruct (Nat.le_gt_cases (length ordered) 15) as [Hle|Hgt].
    + left. apply skipn_all2. exact Hle.
    + right. lia.
Qed.

(** ** The ranking of a single resume *)

Lemma rank_single_resume_cases (config : Config) (clean_text : string -> string)
    (fit_and_compare : string -> list string -> outcome (list Q))
    (job_description resume_text filename : string) :
  ((base_total config == 0)%Q ->
   rank_single_resume config clean_text fit_and_compare
                      job_description resume_text filename
   = Failed "ZeroDivisionError")
  /\ (~ (base_total config == 0)%Q ->
      exists payload,
        rank_single_resume config clean_text fit_and_compare
                           job_description resume_text filename
        = Succeeded payload
        /\ s_skills_found payload
           = extract_dynamic_skills resume_text
               (Some (extract_dynamic_skills job_description None))
        /\ s_experience_years payload = extract_experience_years resume_text
        /\ s_education_level payload = extract_education resume_text
        /\ s_experience_score payload
           = exp_score (extract_experience_years job_description)
                       (extract_experience_years resume_text)
        /\ s_education_score payload
           = edu_score (extract_education job_description)
                       (extract_education resume_text)
        /\ s_match_percentage payload = (s_overall_score payload * 100)%Q
        /\ s_strengths payload
           = _identify_strengths
               {| r_filename := filename;
                  r_sector := "UNKNOWN";
                  combined_score := s_overall_score payload;
                  text_similarity := s_text_similarity payload;
                  skill_score := s_skill_score payload;
                  experience_score := s_experience_score payload;
                  education_score := s_education_score payload;
                  experience_years := s_experience_years payload;
                  education_level := s_education_level payload;
                  skills_found := s_skills_found payload;
                  match_percentage := s_match_percentage payload;
                  recommendations := s_recommendations payload;
                  r_file_path := None |}).
Proof.
  unfold rank_single_resume. cbv zeta. split.
  - intros Hz. rewrite rank_resumes_raised; [reflexivity | exact Hz | discriminate].
  - intros Hne.
    destruct (rank_resumes_unfolded config clean_text fit_and_compare
                job_description
                [{| filename := filename; sector := "UNKNOWN";
                    text := resume_text; file_path := None |}] Hne)
      as (sims & weights & _ & _ & Hrank).
    cbv zeta in Hrank. rewrite Hrank. cbn [map imap].
    match goal with
    | |- context [score_resume ?ja ?w ?s ?i ?p] =>
        destruct (score_resume_fields ja w s i p) as (skill & breakdown & _ & Hf);
        rewrite Hf
    end.
    cbn [returned sorted_desc foldr insert_desc].
    eexists. split; [reflexivity|].
    cbn. repeat split; reflexivity.
Qed.



